(** * Cloudinary to S3 migration: the engine and its verifier

    A shallow embedding of [migrate.js] (class [CloudinaryToS3Migrator]),
    [selective-migrate.js] (class [SelectiveMigrator]) and [verify.js]
    (class [MigrationVerifier]).

    The remote services (the Cloudinary catalog, the S3 bucket, the HTTP
    download, the local write stream) are oracles over an abstract world;
    the objects the scripts mutate ([this], the [downloads/] directory)
    and the calls they issue are explicit state. The workers of a batch
    share [downloads/]: what the others do to it is an oracle too. *)

From Stdlib Require Import ZArith String Ascii List Bool Lia DecimalString.
From Stdlib Require Import Floats.PrimFloat Floats.FloatOps Floats.SpecFloat.
From Stdlib Require Import Uint63.
From stdpp Require Import gmap strings.
Import ListNotations.

Local Open Scope string_scope.
Local Open Scope list_scope.

(** ** JavaScript values *)

Module JS.

(** Truthiness of a string: only the empty string is falsy. *)
Definition truthy (s : string) : bool := negb (String.eqb s "").

(** A property that may be [undefined] is an [option]. *)
Definition truthy_field (o : option string) : bool :=
  match o with
  | Some s => truthy s
  | None => false
  end.

(** Truthiness of a number that may be [undefined]: [0] is falsy. *)
Definition truthy_num (o : option Z) : bool :=
  match o with
  | Some z => negb (z =? 0)%Z
  | None => false
  end.

(** [`${x}`]: an absent value interpolates as the text [undefined]. *)
Definition interp (o : option string) : string :=
  match o with
  | Some s => s
  | None => "undefined"
  end.

(** [a || b] on two possibly absent strings. *)
Definition or_else (a b : option string) : option string :=
  if truthy_field a then a else b.

(** [s.replace(/\//g, '_')]. *)
Fixpoint replace_slashes (s : string) : string :=
  match s with
  | EmptyString => EmptyString
  | String c s' =>
      String (if Ascii.eqb c "/" then "_"%char else c) (replace_slashes s')
  end.

(** [s.toLowerCase()] on ASCII text. *)
Definition lower_char (c : ascii) : ascii :=
  let n := nat_of_ascii c in
  if (65 <=? n)%nat && (n <=? 90)%nat then ascii_of_nat (n + 32) else c.

Fixpoint toLowerCase (s : string) : string :=
  match s with
  | EmptyString => EmptyString
  | String c s' => String (lower_char c) (toLowerCase s')
  end.

(** [n.toString()] for an integer. *)
Definition Z_toString (z : Z) : string := NilZero.string_of_int (Z.to_int z).

(** A counter as a JavaScript number. *)
Definition num (n : nat) : float := of_uint63 (Uint63.of_Z (Z.of_nat n)).

(** [x.toFixed(2)], step "let n be an integer for which n / 10^2 - x is
    as close to zero as possible; if there are two such n, pick the
    larger": computed exactly on the binary expansion of [x >= 0]. *)
Definition hundredths (m : positive) (e : Z) : Z :=
  if (0 <=? e)%Z then (Z.pos m * 2 ^ e * 100)%Z
  else ((200 * Z.pos m + 2 ^ (- e)) / 2 ^ (1 - e))%Z.

(** The digits of [n] with a point before the last two, padded with
    zeros so that one digit stands before the point. *)
Definition point2 (n : Z) : string :=
  let d := Z_toString n in
  let d := if (String.length d <=? 2)%nat
           then String.concat "" (repeat "0" (3 - String.length d)) +:+ d
           else d in
  let k := String.length d in
  substring 0 (k - 2) d +:+ "." +:+ substring (k - 2) 2 d.

(** [x.toFixed(2)] for [0 <= x < 1e21]; outside that range JavaScript
    prints a sign, an exponent or a name, which the verifier's rate
    (between 0 and 100) never needs. *)
Definition toFixed2 (x : float) : string :=
  match Prim2SF x with
  | S754_zero _ => "0.00"
  | S754_finite false m e => point2 (hundredths m e)
  | S754_finite true m e => "-" +:+ point2 (hundredths m e)
  | S754_infinity false => "Infinity"
  | S754_infinity true => "-Infinity"
  | S754_nan => "NaN"
  end.

End JS.

(** ** Asset descriptors

    One entry of [result.resources]. Cloudinary omits [format] for raw
    assets and [folder] for assets at the root, so both may be absent. *)

Record Resource := mkResource {
  public_id : string;
  format : option string;
  bytes : option Z;
  folder : option string;
  secure_url : option string;
  url : option string
}.

(** ** Key derivations *)

(** [migrateAsset]: [`cloudinary/${public_id}.${format}`]. *)
Definition migrate_s3Key (r : Resource) : string :=
  "cloudinary/" +:+ public_id r +:+ "." +:+ JS.interp (format r).

(** [verifyAsset]:
    [folder ? `${folder}/${public_id}.${format}` : `${public_id}.${format}`]. *)
Definition verify_s3Key (r : Resource) : string :=
  if JS.truthy_field (folder r)
  then JS.interp (folder r) +:+ "/" +:+ public_id r +:+ "." +:+ JS.interp (format r)
  else public_id r +:+ "." +:+ JS.interp (format r).

(** [downloadAsset]: [`${publicId.replace(/\//g, '_')}.${format}`]. *)
Definition stagingFileName (publicId : string) (fmt : option string) : string :=
  JS.replace_slashes publicId +:+ "." +:+ JS.interp fmt.

(** [downloadsDir], relative to the script's directory. *)
Definition downloadsDir : string := "downloads".

(** [path.join(downloadsDir, fileName)] for a file name without separators. *)
Definition stagingPath (publicId : string) (fmt : option string) : string :=
  downloadsDir +:+ "/" +:+ stagingFileName publicId fmt.

(** ** Outcomes of calls that may throw or reject *)

Inductive Result (A : Type) : Type :=
| Ok (a : A)
| Throw (message : string).
Arguments Ok {A} a.
Arguments Throw {A} message.

(** ** The services the scripts call *)

(** [s3.headObject(...).promise()]: the object's [ContentLength], or a
    rejection with [error.code] and [error.message]. *)
Inductive HeadResult :=
| HeadOk (ContentLength : Z)
| HeadError (code message : string).

(** [axios({method: 'GET', url, responseType: 'stream', timeout: 30000})]. *)
Inductive GetResult :=
| GetOk (data : string)
| GetError (message : string).

(** The write stream opened on the staging path: ['finish'], or ['error']
    together with what the failed stream left at the path, if anything. *)
Inductive WriterResult :=
| WriterFinish
| WriterError (message : string) (left_behind : option string).

(** The value [getContentType] hands to the request as [ContentType]: a
    text, or a property that the table, an object literal, inherits from
    [Object.prototype] (a function or an object, never a string). *)
Inductive ContentTypeValue :=
| MimeType (text : string)
| Inherited (property : string).

Record UploadParams := mkUploadParams {
  Key : string;
  Body : string;
  ContentType : ContentTypeValue
}.

(** [s3.upload(uploadParams).promise()]. *)
Inductive UploadResult :=
| UploadOk
| UploadError (message : string).

(** [cloudinary.api.resources(options)]: the options of a request, the
    constant [fields] selector apart. *)
Record ResourcesOptions := mkResourcesOptions {
  resource_type : string;
  type : string;
  max_results : Z;
  next_cursor : option string;
  prefix : option string;
  start_at : option string;
  tags : bool;
  context : bool;
  metadata : bool
}.

(** A catalog reply: a page ([result.resources], [result.next_cursor]), or
    a rejection. *)
Inductive CatalogReply :=
| Page (resources : list Resource) (cursor : option string)
| CatalogError (message : string).

(** The calls a run issues, in order. *)
Inductive Event :=
| EvHeadObject (key : string)
| EvWarn (text : string)
| EvGet (target : string)
| EvWriteStream (path : string)
| EvUpload (params : UploadParams)
| EvResources (options : ResourcesOptions)
| EvResourcesByIds (ids : list string).

(** The world answers each call and moves on. [fs_others w fs] is the
    [downloads/] directory as a worker finds it when it looks again, having
    left it as [fs]: the workers of a batch run side by side and share the
    directory, so between two looks of one worker the others may have
    written, replaced or removed files, its own included. *)
Class Services (World : Type) := {
  s3_headObject : string -> World -> HeadResult * World;
  s3_upload : UploadParams -> World -> UploadResult * World;
  axios_get : string -> World -> GetResult * World;
  stream_write : string -> string -> World -> WriterResult * World;
  api_resources : ResourcesOptions -> World -> CatalogReply * World;
  api_resources_by_ids : list string -> World -> CatalogReply * World;
  fs_others : World -> gmap string string -> gmap string string
}.

(** ** Machine state and the monad of a script

    [self] is the object the methods mutate through [this]; [files] is the
    content of the [downloads/] directory by path, as the running worker
    left it or last saw it; [trace] is the list of calls issued so far,
    oldest first. *)

Record St (T World : Type) := mkSt {
  self : T;
  files : gmap string string;
  trace : list Event;
  world : World
}.
Arguments mkSt {T World}.
Arguments self {T World}.
Arguments files {T World}.
Arguments trace {T World}.
Arguments world {T World}.

Definition M (T World A : Type) : Type := St T World -> Result A * St T World.

Section Monad.
Context {T World : Type} `{Services World}.

Definition ret {A} (a : A) : M T World A := fun st => (Ok a, st).

Definition throw {A} (message : string) : M T World A :=
  fun st => (Throw message, st).

Definition bind {A B} (m : M T World A) (k : A -> M T World B) : M T World B :=
  fun st =>
    match m st with
    | (Ok a, st') => k a st'
    | (Throw e, st') => (Throw e, st')
    end.

(** Reading [this]. *)
Definition get_self : M T World T := fun st => (Ok (self st), st).

(** [this.field = f(this.field)]. *)
Definition update (f : T -> T) : M T World unit :=
  fun st => (Ok tt, mkSt (f (self st)) (files st) (trace st) (world st)).

Definition emit (ev : Event) : M T World unit :=
  fun st => (Ok tt, mkSt (self st) (files st) (trace st ++ [ev]) (world st)).

(** A call to a service: logged, answered by the world. *)
Definition ask {A} (ev : Event) (oracle : World -> A * World)
  : St T World -> A * St T World :=
  fun st =>
    let (a, w) := oracle (world st) in
    (a, mkSt (self st) (files st) (trace st ++ [ev]) w).

Definition call {A} (ev : Event) (oracle : World -> A * World) : M T World A :=
  fun st => let (a, st') := ask ev oracle st in (Ok a, st').

Definition set_files (f : gmap string string -> gmap string string)
  : M T World unit :=
  fun st => (Ok tt, mkSt (self st) (f (files st)) (trace st) (world st)).

(** The worker looks at the directory: it finds what the others have made
    of it since. *)
Definition look : M T World (gmap string string) :=
  fun st =>
    let found := fs_others (world st) (files st) in
    (Ok found, mkSt (self st) found (trace st) (world st)).

(** [fs.readFileSync(path)]: throws when the file is absent. *)
Definition readFileSync (path : string) : M T World string :=
  bind look (fun found =>
    match found !! path with
    | Some content => ret content
    | None => throw ("ENOENT: no such file or directory, open '" +:+ path +:+ "'")
    end).

(** [fs.unlinkSync(path)]: throws when the file is absent. *)
Definition unlinkSync (path : string) : M T World unit :=
  bind look (fun found =>
    match found !! path with
    | Some _ => set_files (delete path)
    | None => throw ("ENOENT: no such file or directory, unlink '" +:+ path +:+ "'")
    end).

End Monad.

Notation "'let*' x ':=' m 'in' k" := (bind m (fun x => k))
  (at level 10, x name, m at level 200, k at level 200).

(** ** [migrate.js]: class [CloudinaryToS3Migrator] *)

(** The environment variables the script reads: the three constants set at
    load time, and [parseInt(process.env.MIGRATION_CONCURRENCY)], read by
    [processBatch], which is absent when the text is not a number ([NaN]) or
    the variable is not set. *)
Record Config := mkConfig {
  RESOURCE_TYPE : string;
  DELIVERY_TYPE : string;
  MAX_RESULTS : Z;
  MIGRATION_CONCURRENCY : option Z
}.

(** [parseInt(process.env.MIGRATION_CONCURRENCY) || 10]: [NaN] and [0] give
    the default; a negative number is kept. *)
Definition concurrency (env : Config) : Z :=
  match MIGRATION_CONCURRENCY env with
  | Some n => if JS.truthy_num (Some n) then n else 10%Z
  | None => 10%Z
  end.

(** [pLimit(concurrency)] of the package [p-limit]: a limiter is made for an
    integer limit of 1 or more; for any other the call throws a [TypeError],
    before any task is handed over. *)
Definition pLimit (limit : Z) : Result unit :=
  if (1 <=? limit)%Z then Ok tt
  else Throw "Expected `concurrency` to be a number from 1 and up".

Record FailedAsset := mkFailedAsset {
  failed_public_id : string;
  error : string
}.

Record SkippedAsset := mkSkippedAsset {
  skipped_public_id : string;
  s3_key : string;
  reason : string
}.

Record Migrator := mkMigrator {
  migratedCount : nat;
  failedCount : nat;
  skippedCount : nat;
  totalCount : nat;
  failedAssets : list FailedAsset;
  skippedAssets : list SkippedAsset;
  skipExisting : bool;
  forceOverwrite : bool
}.

(** The [options] object of the constructor: each flag absent or a boolean. *)
Record Options := mkOptions {
  opt_skipExisting : option bool;
  opt_forceOverwrite : option bool
}.

(** [constructor(options = {})]: [skipExisting] is [options.skipExisting !==
    false], [forceOverwrite] is [options.forceOverwrite === true]. *)
Definition new_Migrator (options : Options) : Migrator :=
  {| migratedCount := 0; failedCount := 0; skippedCount := 0; totalCount := 0;
     failedAssets := []; skippedAssets := [];
     skipExisting := match opt_skipExisting options with
                     | Some false => false
                     | _ => true
                     end;
     forceOverwrite := match opt_forceOverwrite options with
                       | Some true => true
                       | _ => false
                       end |}.

(** [main]: the switch over the command line, [--help] apart. *)
Definition parseArg (options : Options) (arg : string) : Options :=
  if String.eqb arg "--skip-existing"
  then mkOptions (Some true) (opt_forceOverwrite options)
  else if String.eqb arg "--no-skip-existing"
  then mkOptions (Some false) (opt_forceOverwrite options)
  else if String.eqb arg "--force-overwrite"
  then mkOptions (Some false) (Some true)
  else options.

Definition parseArgs (args : list string) : Options :=
  fold_left parseArg args (mkOptions None None).

Definition incr_migrated (m : Migrator) : Migrator :=
  mkMigrator (S (migratedCount m)) (failedCount m) (skippedCount m) (totalCount m)
    (failedAssets m) (skippedAssets m) (skipExisting m) (forceOverwrite m).

Definition incr_skipped (m : Migrator) : Migrator :=
  mkMigrator (migratedCount m) (failedCount m) (S (skippedCount m)) (totalCount m)
    (failedAssets m) (skippedAssets m) (skipExisting m) (forceOverwrite m).

(** [this.failedCount++; this.failedAssets.push(entry)]. *)
Definition record_failed (entry : FailedAsset) (m : Migrator) : Migrator :=
  mkMigrator (migratedCount m) (S (failedCount m)) (skippedCount m) (totalCount m)
    (failedAssets m ++ [entry]) (skippedAssets m) (skipExisting m) (forceOverwrite m).

(** [this.skippedAssets.push(entry)]. *)
Definition push_skipped (entry : SkippedAsset) (m : Migrator) : Migrator :=
  mkMigrator (migratedCount m) (failedCount m) (skippedCount m) (totalCount m)
    (failedAssets m) (skippedAssets m ++ [entry]) (skipExisting m) (forceOverwrite m).

(** [this.totalCount += n]. *)
Definition add_total (n : nat) (m : Migrator) : Migrator :=
  mkMigrator (migratedCount m) (failedCount m) (skippedCount m) (totalCount m + n)
    (failedAssets m) (skippedAssets m) (skipExisting m) (forceOverwrite m).

(** [getContentType]: the extension table. *)
Definition contentTypes : gmap string string :=
  list_to_map
    [("jpg", "image/jpeg"); ("jpeg", "image/jpeg"); ("png", "image/png");
     ("gif", "image/gif"); ("webp", "image/webp"); ("svg", "image/svg+xml");
     ("mp4", "video/mp4"); ("webm", "video/webm"); ("mov", "video/quicktime");
     ("mp3", "audio/mpeg"); ("wav", "audio/wav"); ("pdf", "application/pdf")].

(** The names of the properties of [Object.prototype], which the table
    inherits: methods, and the accessor [__proto__]; all of them truthy. *)
Definition objectPrototype : list string :=
  ["constructor"; "__defineGetter__"; "__defineSetter__"; "hasOwnProperty";
   "__lookupGetter__"; "__lookupSetter__"; "isPrototypeOf"; "propertyIsEnumerable";
   "toString"; "valueOf"; "__proto__"; "toLocaleString"].

(** [getContentType(format)]: [format.toLowerCase()] throws on an absent
    format; the lower-cased format is looked up in the table, then among
    the inherited properties; what is found is returned when truthy, and
    the generic type otherwise. *)
Definition getContentType (fmt : option string) : Result ContentTypeValue :=
  match fmt with
  | None => Throw "Cannot read properties of undefined (reading 'toLowerCase')"
  | Some f =>
      let key := JS.toLowerCase f in
      match contentTypes !! key with
      | Some t => Ok (MimeType (if JS.truthy t then t else "application/octet-stream"))
      | None =>
          if existsb (String.eqb key) objectPrototype then Ok (Inherited key)
          else Ok (MimeType "application/octet-stream")
      end
  end.

Inductive LoopExit :=
| Finished   (* [hasMore] became false *)
| Broken     (* the [catch] of the loop body was entered: [break] *)
| Pending.   (* [hasMore] is still true after the iterations granted *)

(** Classes of calls in a trace. *)
Definition is_head (ev : Event) : bool :=
  match ev with
  | EvHeadObject _ => true
  | _ => false
  end.


Definition is_resources (ev : Event) : bool :=
  match ev with
  | EvResources _ => true
  | _ => false
  end.

Definition is_catalog_call (ev : Event) : bool :=
  match ev with
  | EvResources _ | EvResourcesByIds _ => true
  | _ => false
  end.

Section Engine.
Context {World : Type} `{Services World}.
Variable env : Config.

#[local] Abbreviation State := (St Migrator World).
#[local] Abbreviation Run := (M Migrator World).

(** [checkS3FileExists(s3Key)]. *)
Definition checkS3FileExists (s3Key : string) : Run bool :=
  let* probe := call (EvHeadObject s3Key) (s3_headObject s3Key) in
  match probe with
  | HeadOk _ => ret true
  | HeadError code message =>
      if String.eqb code "NotFound" then ret false
      else
        let* _ := emit (EvWarn ("Warning: Could not check if " +:+ s3Key
                                +:+ " exists: " +:+ message)) in
        ret false
  end.

(** [downloadAsset(url, publicId, format)]: the write stream is opened on
    the staging path once the response has arrived; the promise resolves
    to the path on ['finish'] and rejects on ['error']. *)
Definition downloadAsset (target publicId : string) (fmt : option string)
  : Run string :=
  let filePath := stagingPath publicId fmt in
  let* response := call (EvGet target) (axios_get target) in
  match response with
  | GetError message => throw message
  | GetOk data =>
      let* written := call (EvWriteStream filePath) (stream_write filePath data) in
      match written with
      | WriterFinish =>
          let* _ := set_files (insert filePath data) in
          ret filePath
      | WriterError message left_behind =>
          let* _ := set_files (match left_behind with
                               | Some part => insert filePath part
                               | None => id
                               end) in
          throw message
      end
  end.

(** [uploadToS3(filePath, resource, s3KeyOverride)]: the body is what the
    staging path holds when it is read. The metadata entries are built
    from the descriptor without a call or a throw and are left out of the
    request. *)
Definition uploadToS3 (filePath : string) (r : Resource) (s3KeyOverride : string)
  : Run unit :=
  let s3Key := if JS.truthy s3KeyOverride then s3KeyOverride
               else "cloudinary/" +:+ public_id r +:+ "." +:+ JS.interp (format r) in
  let* fileContent := readFileSync filePath in
  match getContentType (format r) with
  | Throw message => throw message
  | Ok contentType =>
      let uploadParams := mkUploadParams s3Key fileContent contentType in
      let* ack := call (EvUpload uploadParams) (s3_upload uploadParams) in
      match ack with
      | UploadOk => ret tt
      | UploadError message => throw message
      end
  end.

(** [migrateAsset], from "Migrating:" on: fetch, persist, clean up. The
    staging file is written while the download is awaited, read when
    [uploadToS3] starts and removed once the upload has been awaited; in
    between the directory belongs to the other workers as well. *)
Definition transfer (r : Resource) (s3Key : string) : Run string :=
  match JS.or_else (secure_url r) (url r) with
  | Some cloudinaryUrl =>
      if JS.truthy cloudinaryUrl then
        let* localFilePath := downloadAsset cloudinaryUrl (public_id r) (format r) in
        let* _ := uploadToS3 localFilePath r s3Key in
        let* _ := unlinkSync localFilePath in
        ret "migrated"
      else throw ("No downloadable URL found for " +:+ public_id r)
  | None => throw ("No downloadable URL found for " +:+ public_id r)
  end.

(** [migrateAsset(resource)]. *)
Definition migrateAsset (r : Resource) : Run string :=
  let s3Key := migrate_s3Key r in
  let* this := get_self in
  if skipExisting this && negb (forceOverwrite this) then
    let* exists_ := checkS3FileExists s3Key in
    if exists_ : bool then
      let* _ := update (push_skipped
                          (mkSkippedAsset (public_id r) s3Key "already_exists")) in
      ret "skipped"
    else transfer r s3Key
  else transfer r s3Key.

(** One task of [processBatch]:
    [migrateAsset(resource).then(...).catch(...)]. *)
Definition settle (r : Resource) (st : State) : State :=
  match migrateAsset r st with
  | (Ok result, st') =>
      if String.eqb result "migrated" then snd (update incr_migrated st')
      else if String.eqb result "skipped" then snd (update incr_skipped st')
      else st'
  | (Throw message, st') =>
      snd (update (record_failed (mkFailedAsset (public_id r) message)) st')
  end.

(** [await Promise.all(tasks)]: every task settles, fulfilled or rejected.
    The limiter starts the tasks in the order of the page, up to its limit
    at a time, and they take turns at their awaits; here each task is run
    to its end before the next, in the order of the page. A task depends
    on the others only through what the services answer and through the
    staging directory, and both are oracles: the answers the tasks get
    while taking turns are the answers of some world to the tasks in a
    row. What this order fixes, and the source does not, is the place of
    the calls of different tasks in the trace and of their entries in the
    two lists: the tasks settle in an order of their own. *)
Definition settle_all (resources : list Resource) (st : State) : State :=
  fold_left (fun st r => settle r st) resources st.

(** [processBatch(resources)]: the limiter is made first; when [pLimit]
    throws, [processBatch] throws with it and no task exists. *)
Definition processBatch (resources : list Resource) : Run unit :=
  fun st =>
    match pLimit (concurrency env) with
    | Ok _ => (Ok tt, settle_all resources st)
    | Throw message => (Throw message, st)
    end.

(** The body of [while (hasMore)], shared by [migrate] and
    [migrateWithFilters]: [options] builds the request from the cursor;
    [fuel] bounds the iterations. The [try] holds the request, the update
    of [totalCount] and the batch: a rejected request and a batch that
    throws both end in the [catch], which breaks out of the loop. *)
Fixpoint paginate (options : option string -> ResourcesOptions) (fuel : nat)
    (nextCursor : option string) (st : State) : LoopExit * State :=
  match fuel with
  | 0 => (Pending, st)
  | S fuel' =>
      let request := options nextCursor in
      match ask (EvResources request) (api_resources request) st with
      | (CatalogError _, st1) => (Broken, st1)
      | (Page resources cursor, st1) =>
          let st2 := snd (update (add_total (length resources)) st1) in
          match processBatch resources st2 with
          | (Throw _, st3) => (Broken, st3)
          | (Ok _, st3) =>
              if JS.truthy_field cursor then paginate options fuel' cursor st3
              else (Finished, st3)
          end
      end
  end.

(** The catalog, asked from [st] with [nextCursor], has [k] pages left:
    the replies to the next [k - 1] requests of the loop carry a cursor
    and the reply to the [k]-th carries none. *)
Inductive yields_pages (options : option string -> ResourcesOptions)
  : nat -> option string -> State -> Prop :=
| yields_last nextCursor st resources cursor st1 :
    ask (EvResources (options nextCursor)) (api_resources (options nextCursor)) st
    = (Page resources cursor, st1) ->
    JS.truthy_field cursor = false ->
    yields_pages options 1 nextCursor st
| yields_next k nextCursor st resources cursor st1 :
    ask (EvResources (options nextCursor)) (api_resources (options nextCursor)) st
    = (Page resources cursor, st1) ->
    JS.truthy_field cursor = true ->
    yields_pages options k cursor
      (snd (processBatch resources (snd (update (add_total (length resources)) st1)))) ->
    yields_pages options (S k) nextCursor st.

(** The request of [migrate]. *)
Definition migrate_options (nextCursor : option string) : ResourcesOptions :=
  {| resource_type := RESOURCE_TYPE env; type := DELIVERY_TYPE env;
     max_results := MAX_RESULTS env;
     next_cursor := if JS.truthy_field nextCursor then nextCursor else None;
     prefix := None; start_at := None;
     tags := false; context := false; metadata := false |}.

(** [migrate()], up to [printSummary], which only reads the counters. *)
Definition migrate (fuel : nat) (st : State) : LoopExit * State :=
  paginate migrate_options fuel None st.

End Engine.

(** ** [selective-migrate.js]: class [SelectiveMigrator] *)

(** [this.options]: what the command line set; an absent entry is falsy. *)
Record SelectiveOptions := mkSelectiveOptions {
  sel_prefix : option string;
  sel_publicIds : option (list string);
  sel_startAt : option string;
  sel_tags : bool;
  sel_context : bool;
  sel_metadata : bool;
  sel_resourceType : option string;
  sel_deliveryType : option string;
  sel_maxResults : option Z
}.

(** [a.slice(i, j)] for [0 <= i <= j]: the end is clamped to the length. *)
Definition slice {A} (l : list A) (i j : nat) : list A := firstn (j - i) (skipn i l).

(** [for (let i = 0; i < publicIds.length; i += 100)
       batches.push(publicIds.slice(i, i + 100))]. *)
Fixpoint batches_from (fuel i : nat) (publicIds : list string)
    (batches : list (list string)) : list (list string) :=
  match fuel with
  | 0 => batches
  | S fuel' =>
      if (i <? length publicIds)%nat
      then batches_from fuel' (i + 100) publicIds (batches ++ [slice publicIds i (i + 100)])
      else batches
  end.

(** The loop needs at most one iteration per identifier. *)
Definition split_batches (publicIds : list string) : list (list string) :=
  batches_from (length publicIds) 0 publicIds [].

Section Selective.
Context {World : Type} `{Services World}.
Variable env : Config.
Variable options : SelectiveOptions.

#[local] Abbreviation State := (St Migrator World).

(** One iteration of [for (const batch of batches)]: the [try] is inside
    the loop, so a rejected lookup, or a batch that throws, is logged and
    the loop goes on with the next batch. *)
Definition lookup_batch (st : State) (batch : list string) : State :=
  match ask (EvResourcesByIds batch) (api_resources_by_ids batch) st with
  | (CatalogError _, st1) => st1
  | (Page resources _, st1) =>
      snd (processBatch env resources (snd (update (add_total (length resources)) st1)))
  end.

(** [migrateByPublicIds(publicIds)]. *)
Definition migrateByPublicIds (publicIds : list string) (st : State) : State :=
  fold_left lookup_batch (split_batches publicIds) st.

(** The request of [migrateWithFilters]. *)
Definition filter_options (nextCursor : option string) : ResourcesOptions :=
  {| resource_type := if JS.truthy_field (sel_resourceType options)
                      then JS.interp (sel_resourceType options) else "image";
     type := if JS.truthy_field (sel_deliveryType options)
             then JS.interp (sel_deliveryType options) else "upload";
     max_results := match sel_maxResults options with
                    | Some n => if JS.truthy_num (Some n) then n else 100%Z
                    | None => 100%Z
                    end;
     next_cursor := if JS.truthy_field nextCursor then nextCursor else None;
     prefix := if JS.truthy_field (sel_prefix options) then sel_prefix options else None;
     start_at := if JS.truthy_field (sel_startAt options)
                 then sel_startAt options else None;
     tags := sel_tags options;
     context := sel_context options;
     metadata := sel_metadata options |}.

Definition migrateWithFilters (fuel : nat) (st : State) : LoopExit * State :=
  paginate env filter_options fuel None st.

(** [migrate()], up to [printSummary]:
    [if (this.options.publicIds && this.options.publicIds.length > 0)]. *)
Definition selective_migrate (fuel : nat) (st : State) : LoopExit * State :=
  match sel_publicIds options with
  | Some (id :: ids) => (Finished, migrateByPublicIds (id :: ids) st)
  | _ => migrateWithFilters fuel st
  end.

End Selective.

(** ** [verify.js]: class [MigrationVerifier] *)

Record MissingAsset := mkMissingAsset {
  missing_public_id : string;
  missing_format : option string;
  expected_s3_key : string
}.

Record SizeMismatch := mkSizeMismatch {
  mismatch_public_id : string;
  cloudinary_size : Z;
  s3_size : Z;
  mismatch_s3_key : string
}.

Record Verifier := mkVerifier {
  verified : nat;
  missing : nat;
  missingAssets : list MissingAsset;
  sizeMismatches : list SizeMismatch
}.

Definition new_Verifier : Verifier :=
  {| verified := 0; missing := 0; missingAssets := []; sizeMismatches := [] |}.

Definition push_mismatch (entry : SizeMismatch) (v : Verifier) : Verifier :=
  mkVerifier (verified v) (missing v) (missingAssets v) (sizeMismatches v ++ [entry]).

Definition incr_verified (v : Verifier) : Verifier :=
  mkVerifier (S (verified v)) (missing v) (missingAssets v) (sizeMismatches v).

(** [this.missing++; this.missingAssets.push(entry)]. *)
Definition record_missing (entry : MissingAsset) (v : Verifier) : Verifier :=
  mkVerifier (verified v) (S (missing v)) (missingAssets v ++ [entry]) (sizeMismatches v).

(** [printVerificationReport]: [total] and [successRate]; the number [0]
    of an empty run is shown by its text. *)
Definition total_checked (v : Verifier) : nat := verified v + missing v.

Definition successRate (v : Verifier) : string :=
  if (0 <? total_checked v)%nat
  then JS.toFixed2 (PrimFloat.mul
                      (PrimFloat.div (JS.num (verified v)) (JS.num (total_checked v)))
                      (JS.num 100))
  else "0".

(** [if (this.missing > 0 || this.sizeMismatches.length > 0)]: the report
    file is written. *)
Definition report_saved (v : Verifier) : bool :=
  (0 <? missing v)%nat || (0 <? length (sizeMismatches v))%nat.

Section Verification.
Context {World : Type} `{Services World}.

#[local] Abbreviation VState := (St Verifier World).

(** [verifyAsset(resource)]. *)
Definition verifyAsset (r : Resource) (st : VState) : VState :=
  let s3Key := verify_s3Key r in
  match ask (EvHeadObject s3Key) (s3_headObject s3Key) st with
  | (HeadOk ContentLength, st1) =>
      let st2 :=
        match bytes r with
        | Some b =>
            if JS.truthy_num (Some b) && negb (ContentLength =? b)%Z
            then snd (update (push_mismatch
                                (mkSizeMismatch (public_id r) b ContentLength s3Key)) st1)
            else st1
        | None => st1
        end in
      snd (update incr_verified st2)
  | (HeadError code message, st1) =>
      if String.eqb code "NotFound"
      then snd (update (record_missing
                          (mkMissingAsset (public_id r) (format r) (verify_s3Key r))) st1)
      else st1
  end.

(** [verifyBatch(resources)]: the probes are taken in the order of the
    page. *)
Definition verifyBatch (resources : list Resource) (st : VState) : VState :=
  fold_left (fun st r => verifyAsset r st) resources st.

(** [verify(resourceType, deliveryType, sampleSize)], up to the report. *)
Fixpoint verify_loop (resourceType deliveryType : string) (sampleSize : option Z)
    (fuel : nat) (nextCursor : option string) (processed : Z) (st : VState)
    : LoopExit * VState :=
  let within := negb (JS.truthy_num sampleSize)
                || match sampleSize with
                   | Some n => (processed <? n)%Z
                   | None => false
                   end in
  match fuel with
  | 0 => if within then (Pending, st) else (Finished, st)
  | S fuel' =>
      if within then
        let maxResults :=
          match sampleSize with
          | Some n => if JS.truthy_num sampleSize then Z.min 100 (n - processed) else 100%Z
          | None => 100%Z
          end in
        let request :=
          {| resource_type := resourceType; type := deliveryType;
             max_results := maxResults;
             next_cursor := if JS.truthy_field nextCursor then nextCursor else None;
             prefix := None; start_at := None;
             tags := false; context := false; metadata := false |} in
        match ask (EvResources request) (api_resources request) st with
        | (CatalogError _, st1) => (Broken, st1)
        | (Page resources cursor, st1) =>
            let st2 := verifyBatch resources st1 in
            let processed' := (processed + Z.of_nat (length resources))%Z in
            if JS.truthy_field cursor
               && (negb (JS.truthy_num sampleSize)
                   || match sampleSize with
                      | Some n => (processed' <? n)%Z
                      | None => false
                      end)
            then verify_loop resourceType deliveryType sampleSize fuel' cursor processed' st2
            else (Finished, st2)
        end
      else (Finished, st)
  end.

Definition verify (resourceType deliveryType : string) (sampleSize : option Z)
    (fuel : nat) (st : VState) : LoopExit * VState :=
  verify_loop resourceType deliveryType sampleSize fuel None 0%Z st.

End Verification.

(** ** A scripted world

    The bucket is a map from keys to sizes; uploads succeed when the bucket
    is writable; downloads and staging writes succeed; the catalog answers
    its successive requests from a list; nobody else touches the staging
    directory. *)

Module Stub.

Record World := mkWorld {
  bucket : gmap string Z;
  writable : bool;
  catalog : list CatalogReply
}.

Definition head (key : string) (w : World) : HeadResult * World :=
  match bucket w !! key with
  | Some size => (HeadOk size, w)
  | None => (HeadError "NotFound" "Not Found", w)
  end.

Definition put (p : UploadParams) (w : World) : UploadResult * World :=
  if writable w
  then (UploadOk,
        mkWorld (<[Key p := Z.of_nat (String.length (Body p))]> (bucket w))
          (writable w) (catalog w))
  else (UploadError "Access Denied", w).

Definition next_reply (w : World) : CatalogReply * World :=
  match catalog w with
  | reply :: rest => (reply, mkWorld (bucket w) (writable w) rest)
  | [] => (CatalogError "Service Unavailable", w)
  end.

#[global] Instance services : Services World := {|
  s3_headObject := head;
  s3_upload := put;
  axios_get := fun target w => (GetOk ("bytes of " +:+ target), w);
  stream_write := fun _ _ w => (WriterFinish, w);
  api_resources := fun _ w => next_reply w;
  api_resources_by_ids := fun _ w => next_reply w;
  fs_others := fun _ fs => fs
|}.

Definition start {T} (this : T) (w : World) : St T World :=
  mkSt this ∅ [] w.

End Stub.

(** The scenario of the verification property: the destination holds the
    objects the verifier looks for as A and B, of sizes 100 and 200; the
    catalog lists A (100 bytes), B (999 bytes) and C (50 bytes). *)

Module Scenario.

Definition A : Resource := mkResource "A" (Some "jpg") (Some 100%Z) None None None.
Definition B : Resource := mkResource "B" (Some "jpg") (Some 999%Z) None None None.
Definition C : Resource := mkResource "C" (Some "jpg") (Some 50%Z) None None None.

Definition destination : gmap string Z :=
  <["A.jpg" := 100%Z]> (<["B.jpg" := 200%Z]> ∅).

Definition world : Stub.World :=
  Stub.mkWorld destination true [Page [A; B; C] None].

Definition run : LoopExit * St Verifier Stub.World :=
  verify "image" "upload" None 1 (Stub.start new_Verifier world).

Definition report : Verifier := self (snd run).

End Scenario.

(** One asset and a fresh migrator in front of an empty bucket, writable or
    read-only. *)

Module Sample.

Definition asset : Resource :=
  mkResource "a" (Some "jpg") (Some 5%Z) None
    (Some "https://res.cloudinary.com/demo/image/upload/a.jpg") None.

Definition start (writable : bool) : St Migrator Stub.World :=
  Stub.start (new_Migrator (mkOptions None None)) (Stub.mkWorld ∅ writable []).

End Sample.

(** A catalog of three pages, reached through the cursors [c2] and [c3]. *)

Module ThreePages.

Definition asset (name : string) : Resource :=
  mkResource name (Some "jpg") (Some 1%Z) None
    (Some ("https://res.cloudinary.com/demo/image/upload/" +:+ name +:+ ".jpg")) None.

Definition catalog : list CatalogReply :=
  [Page [asset "p1"] (Some "c2");
   Page [asset "p2"; asset "p3"] (Some "c3");
   Page [asset "p4"] None].

(** [MIGRATION_CONCURRENCY] is not set: the limit is the default, 10. *)
Definition env : Config := mkConfig "image" "upload" 100 None.

Definition start : St Migrator Stub.World :=
  Stub.start (new_Migrator (mkOptions None None)) (Stub.mkWorld ∅ true catalog).

End ThreePages.

(** An explicit list of 250 identifiers, [id0] to [id249]. *)

Module ExplicitList.

Definition ids : list string :=
  map (fun n => "id" +:+ JS.Z_toString (Z.of_nat n)) (seq 0 250).

Definition options : SelectiveOptions :=
  mkSelectiveOptions None (Some ids) None false false false None None None.

Definition start : St Migrator Stub.World :=
  Stub.start (new_Migrator (mkOptions None None)) (Stub.mkWorld ∅ true []).

End ExplicitList.

(** ** Further classes of calls *)

Definition is_upload (ev : Event) : bool :=
  match ev with
  | EvUpload _ => true
  | _ => false
  end.

(** The calls of the fetch-persist pipeline: download, staging write,
    upload. *)
Definition is_transfer_call (ev : Event) : bool :=
  match ev with
  | EvGet _ | EvWriteStream _ | EvUpload _ => true
  | _ => false
  end.

(** [printSummary()]: the files it writes, by name, with the list each one
    serialises; the console lines are left out. *)
Inductive Artifact :=
| SkippedAssetsFile (entries : list SkippedAsset)      (* skipped-assets.json *)
| SkippedMigrationsFile (entries : list SkippedAsset)  (* skipped-migrations.json *)
| FailedAssetsFile (entries : list FailedAsset).       (* failed-assets.json *)

Definition summary_files (m : Migrator) : list Artifact :=
  (if (0 <? length (skippedAssets m))%nat
   then [SkippedAssetsFile (skippedAssets m); SkippedMigrationsFile (skippedAssets m)]
   else [])
  ++ (if (0 <? length (failedAssets m))%nat
      then [FailedAssetsFile (failedAssets m)]
      else []).

(** The lists and the counters tell the same numbers. *)
Definition lists_agree (m : Migrator) : Prop :=
  length (failedAssets m) = failedCount m
  /\ length (skippedAssets m) = skippedCount m.

(** The last of the three policy flags on a command line, if any. *)
Definition is_policy_flag (arg : string) : bool :=
  String.eqb arg "--skip-existing" || String.eqb arg "--no-skip-existing"
  || String.eqb arg "--force-overwrite".

Definition last_policy_flag (args : list string) : option string :=
  last (List.filter is_policy_flag args).

(** A world whose downloads time out. *)

Module Outage.

Record World := mkWorld { requests : nat }.

#[global] Instance services : Services World := {|
  s3_headObject := fun _ w => (HeadError "NotFound" "Not Found", w);
  s3_upload := fun _ w => (UploadOk, w);
  axios_get := fun _ w =>
    (GetError "timeout of 30000ms exceeded", mkWorld (S (requests w)));
  stream_write := fun _ _ w => (WriterFinish, w);
  api_resources := fun _ w => (CatalogError "Service Unavailable", w);
  api_resources_by_ids := fun _ w => (CatalogError "Service Unavailable", w);
  fs_others := fun _ fs => fs
|}.

Definition start : St Migrator World :=
  mkSt (new_Migrator (mkOptions None None)) ∅ [] (mkWorld 0).

End Outage.

(** A catalog that serves a fixed listing page by page and never returns
    more than [max_results] assets; every listed asset is in the bucket
    with its own size. *)

Module Listing.

Record World := mkWorld { remaining : list Resource }.

Definition page (request : ResourcesOptions) (w : World) : CatalogReply * World :=
  let n := Z.to_nat (max_results request) in
  (Page (firstn n (remaining w))
     (if (n <? length (remaining w))%nat then Some "next" else None),
   mkWorld (skipn n (remaining w))).

#[global] Instance services : Services World := {|
  s3_headObject := fun _ w => (HeadOk 1, w);
  s3_upload := fun _ w => (UploadOk, w);
  axios_get := fun _ w => (GetOk "", w);
  stream_write := fun _ _ w => (WriterFinish, w);
  api_resources := page;
  api_resources_by_ids := fun _ w => (Page [] None, w);
  fs_others := fun _ fs => fs
|}.

Definition asset (n : nat) : Resource :=
  mkResource ("img" +:+ JS.Z_toString (Z.of_nat n)) (Some "jpg") (Some 1%Z) None None None.

(** 250 assets, [img0] to [img249]. *)
Definition start : St Verifier World :=
  mkSt new_Verifier ∅ [] (mkWorld (map asset (seq 0 250))).

End Listing.

(** What the verifier's lists and counters keep between them. *)
Definition verifier_consistent (v : Verifier) : Prop :=
  length (missingAssets v) = missing v
  /\ length (sizeMismatches v) <= verified v.

(** The descriptor fields that only [uploadToS3] reads. *)
Record Details := mkDetails {
  asset_resource_type : string;
  asset_created_at : string;
  asset_width : option Z;
  asset_height : option Z;
  asset_tags : option (list string);
  asset_context : option (gmap string string)
}.

(** [if (n) metadata[key] = n.toString()]. *)
Definition set_number (key : string) (n : option Z) (metadata : gmap string string)
  : gmap string string :=
  match n with
  | Some z => if JS.truthy_num (Some z) then <[key := JS.Z_toString z]> metadata
              else metadata
  | None => metadata
  end.

(** [uploadToS3]: the three entries the [metadata] object starts with. *)
Definition initialMetadata (r : Resource) (d : Details) : gmap string string :=
  <["cloudinary-created-at" := asset_created_at d]>
    (<["resource-type" := asset_resource_type d]>
       (<["original-public-id" := public_id r]> ∅)).

(** [uploadToS3]: the [metadata] object of the request, entry by entry in
    the order of the source. *)
Definition uploadMetadata (r : Resource) (d : Details) : gmap string string :=
  let metadata := initialMetadata r d in
  let metadata := set_number "original-size" (bytes r) metadata in
  let metadata := set_number "width" (asset_width d) metadata in
  let metadata := set_number "height" (asset_height d) metadata in
  let metadata :=
    match asset_tags d with
    | Some (t :: ts) => <["tags" := String.concat "," (t :: ts)]> metadata
    | _ => metadata
    end in
  match asset_context d with
  | Some entries =>
      map_fold (fun key value m => <["context-" +:+ key := value]> m) metadata entries
  | None => metadata
  end.

(** The cursors a loop sends: the one it starts from, then cursors that
    are present and not empty. *)
Definition cursor_chain (start : option string) (cursors : list (option string)) : Prop :=
  match cursors with
  | [] => True
  | first :: rest => first = start /\ Forall (fun c => JS.truthy_field c = true) rest
  end.

(** The policy asks for the existence check:
    [this.skipExisting && !this.forceOverwrite]. *)
Definition checks_existence (m : Migrator) : bool :=
  skipExisting m && negb (forceOverwrite m).

(** Nobody else touches [path] while the world is [w]. *)
Definition undisturbed {World : Type} `{Services World} (path : string) (w : World)
  : Prop :=
  forall fs, fs_others w fs !! path = fs !! path.

(** A batch in which two workers stage at the same path: the page lists
    [a/b] and [a_b], both [jpg]. Seen from the worker of [a_b]: when it
    reads its staging file the other worker has written over it, and once
    its upload is acknowledged the other worker has finished and removed
    the file. *)

Module SharedStaging.

Record World := mkWorld { acknowledged : nat }.

Definition asset : Resource :=
  mkResource "a_b" (Some "jpg") (Some 3%Z) None
    (Some "https://res.cloudinary.com/demo/image/upload/a_b.jpg") None.

Definition other_worker (w : World) (fs : gmap string string) : gmap string string :=
  match acknowledged w with
  | 0 => <["downloads/a_b.jpg" := "bytes of a/b"]> fs
  | S _ => delete "downloads/a_b.jpg" fs
  end.

#[global] Instance services : Services World := {|
  s3_headObject := fun _ w => (HeadError "NotFound" "Not Found", w);
  s3_upload := fun _ w => (UploadOk, mkWorld (S (acknowledged w)));
  axios_get := fun _ w => (GetOk "bytes of a_b", w);
  stream_write := fun _ _ w => (WriterFinish, w);
  api_resources := fun _ w => (CatalogError "Service Unavailable", w);
  api_resources_by_ids := fun _ w => (CatalogError "Service Unavailable", w);
  fs_others := other_worker
|}.

Definition start : St Migrator World :=
  mkSt (new_Migrator (mkOptions None None)) ∅ [] (mkWorld 0).

End SharedStaging.

(** A page of three assets in front of [MIGRATION_CONCURRENCY=-1]. *)

Module InvalidLimit.

Definition env : Config := mkConfig "image" "upload" 100 (Some (-1)%Z).

Definition start : St Migrator Stub.World :=
  Stub.start (new_Migrator (mkOptions None None))
    (Stub.mkWorld ∅ true
       [Page [mkResource "r1" (Some "jpg") (Some 1%Z) None
                (Some "https://res.cloudinary.com/demo/image/upload/r1.jpg") None;
              mkResource "r2" (Some "jpg") (Some 1%Z) None
                (Some "https://res.cloudinary.com/demo/image/upload/r2.jpg") None;
              mkResource "r3" (Some "jpg") (Some 1%Z) None
                (Some "https://res.cloudinary.com/demo/image/upload/r3.jpg") None]
          None]).

End InvalidLimit.

(** ** Observations and judgements on scripts

    [keeps obs m]: running [m] leaves the observation [obs] of the state
    unchanged, whether [m] returns or throws. [returns Q m]: every value
    [m] returns satisfies [Q]. *)

Definition keeps {T World X A} (obs : St T World -> X) (m : M T World A) : Prop :=
  forall st, obs (snd (m st)) = obs st.

Definition returns {T World A} (Q : A -> Prop) (m : M T World A) : Prop :=
  forall st a st', m st = (Ok a, st') -> Q a.

Definition counts (m : Migrator) : nat * nat * nat * nat :=
  (migratedCount m, skippedCount m, failedCount m, totalCount m).

Definition policy (m : Migrator) : bool * bool := (skipExisting m, forceOverwrite m).

Definition obs_self {World} (st : St Migrator World)
  : (nat * nat * nat * nat) * (bool * bool) :=
  (counts (self st), policy (self st)).

(** The calls of a class issued so far. *)
Definition calls {T World} (p : Event -> bool) (st : St T World) : list Event :=
  List.filter p (trace st).

(** The assets settled so far, whatever their outcome. *)
Definition settled (m : Migrator) : nat :=
  migratedCount m + skippedCount m + failedCount m.

(** * Properties *)

(** ** Keys *)

Lemma append_length (a b : string) :
  String.length (a +:+ b) = String.length a + String.length b.
Proof. induction a as [|c a IH]; simpl; [reflexivity | now rewrite IH]. Qed.

Lemma append_inv_tail (a b c : string) : a +:+ c = b +:+ c -> a = b.
Proof.
  revert b. induction a as [|x a IH]; intros [|y b] E.
  - reflexivity.
  - apply (f_equal String.length) in E. rewrite !append_length in E.
    cbn [String.length] in E. lia.
  - apply (f_equal String.length) in E. rewrite !append_length in E.
    cbn [String.length] in E. lia.
  - change (String x (a +:+ c) = String y (b +:+ c)) in E.
    injection E as -> E. f_equal. now apply IH.
Qed.

(** The two derivations agree on a descriptor exactly when its folder is
    the text [cloudinary]. *)
Lemma s3Key_agreement (r : Resource) :
  verify_s3Key r = migrate_s3Key r <-> folder r = Some "cloudinary".
Proof.
  unfold verify_s3Key, migrate_s3Key.
  set (rest := public_id r +:+ "." +:+ JS.interp (format r)).
  destruct (folder r) as [f|] eqn:Ef; simpl.
  - destruct (JS.truthy f) eqn:Et.
    + split.
      * intros E.
        change ("cloudinary/" +:+ rest) with ("cloudinary" +:+ ("/" +:+ rest)) in E.
        assert (E' : f +:+ ("/" +:+ rest) = "cloudinary" +:+ ("/" +:+ rest)) by exact E.
        apply append_inv_tail in E'. now subst.
      * intros [= ->]. reflexivity.
    + split.
      * intros E. apply (f_equal String.length) in E.
        rewrite (append_length "cloudinary/" rest) in E. simpl in E. lia.
      * intros [= ->]. discriminate Et.
  - split.
    + intros E. apply (f_equal String.length) in E.
      rewrite (append_length "cloudinary/" rest) in E. simpl in E. lia.
    + discriminate.
Qed.

(** C2. The key the verifier probes is not the key the migrator writes:
    the asset [a.jpg], without a folder, is stored under
    [cloudinary/a.jpg] and looked for under [a.jpg], so the verifier
    reports as missing the asset the migrator has just written. *)
Theorem verifier_key_differs_from_migrator_key :
  let migrated := snd (migrateAsset Sample.asset (Sample.start true)) in
  let checked := verifyAsset Sample.asset (Stub.start new_Verifier (world migrated)) in
  migrate_s3Key Sample.asset = "cloudinary/a.jpg"
  /\ verify_s3Key Sample.asset = "a.jpg"
  /\ verify_s3Key Sample.asset <> migrate_s3Key Sample.asset
  /\ fst (migrateAsset Sample.asset (Sample.start true)) = Ok "migrated"
  /\ Stub.bucket (world migrated) !! "cloudinary/a.jpg" <> None
  /\ Stub.bucket (world migrated) !! "a.jpg" = None
  /\ (verified (self checked), missing (self checked)) = (0, 1).
Proof.
  cbv zeta. split; [reflexivity | split; [reflexivity |]]. split.
  - intros E. apply s3Key_agreement in E. discriminate E.
  - vm_compute. repeat split. discriminate.
Qed.

(** C10. The staging name is not injective: the identifiers [a/b] and [a_b]
    of one format share a staging file while their destination keys
    differ. *)
Theorem staging_name_not_injective :
  let r1 := mkResource "a/b" (Some "jpg") None None None None in
  let r2 := mkResource "a_b" (Some "jpg") None None None None in
  public_id r1 <> public_id r2
  /\ stagingFileName (public_id r1) (format r1) = stagingFileName (public_id r2) (format r2)
  /\ stagingPath (public_id r1) (format r1) = stagingPath (public_id r2) (format r2)
  /\ migrate_s3Key r1 <> migrate_s3Key r2
  /\ ~ (forall p q fmt, stagingFileName p fmt = stagingFileName q fmt -> p = q).
Proof.
  cbv zeta. repeat split; try reflexivity; try discriminate.
  intros Inj. specialize (Inj "a/b" "a_b" (Some "jpg") eq_refl). discriminate Inj.
Qed.

(** ** The existence check *)

(** C5. [checkS3FileExists] never throws; it answers [true] exactly when
    the probe succeeded; a [NotFound] rejection gives [false] with no
    warning and any other rejection gives [false] after one warning. The
    call touches neither [this] nor the staging directory. *)
Theorem checkS3FileExists_conservative
    {World : Type} `{Services World} (s3Key : string) (st : St Migrator World) :
  let probe := fst (s3_headObject s3Key (world st)) in
  let out := checkS3FileExists s3Key st in
  (exists answer, fst out = Ok answer
     /\ (answer = true <-> exists size, probe = HeadOk size))
  /\ trace (snd out)
     = trace st ++ EvHeadObject s3Key ::
         match probe with
         | HeadOk _ => []
         | HeadError code message =>
             if String.eqb code "NotFound" then []
             else [EvWarn ("Warning: Could not check if " +:+ s3Key +:+ " exists: "
                           +:+ message)]
         end
  /\ self (snd out) = self st
  /\ files (snd out) = files st
  /\ world (snd out) = snd (s3_headObject s3Key (world st)).
Proof.
  cbv zeta. unfold checkS3FileExists, bind, call, ask, ret, emit.
  destruct (s3_headObject s3Key (world st)) as [[size | code message] w]; cbn.
  - repeat split; eauto. exists true. split; [reflexivity |]. split; eauto.
  - destruct (String.eqb code "NotFound"); cbn.
    + repeat split; eauto. exists false. repeat split; try discriminate.
      intros [size E]. discriminate E.
    + repeat split; eauto.
      * exists false. repeat split; try discriminate. intros [size E]. discriminate E.
      * now rewrite <- app_assoc.
Qed.

(** ** The verifier *)

(** An object that is present counts as verified, whether or not its size
    matches; a mismatch is recorded besides. *)
Lemma verifyAsset_present
    {World : Type} `{Services World} (r : Resource) (st : St Verifier World)
    (size : Z) (w : World) :
  s3_headObject (verify_s3Key r) (world st) = (HeadOk size, w) ->
  verified (self (verifyAsset r st)) = S (verified (self st))
  /\ missing (self (verifyAsset r st)) = missing (self st).
Proof.
  intros Hp. unfold verifyAsset, ask, update. rewrite Hp.
  destruct (bytes r) as [b|]; [destruct (_ && _) |]; cbn; auto.
Qed.

(** C9. A descriptor whose size is absent or zero is counted as verified
    as soon as the probe succeeds: nothing else of the verifier changes,
    so no size mismatch is recorded whatever the size of the object. *)
Theorem verifyAsset_without_size
    {World : Type} `{Services World} (r : Resource) (st : St Verifier World)
    (size : Z) (w : World) :
  bytes r = None \/ bytes r = Some 0%Z ->
  s3_headObject (verify_s3Key r) (world st) = (HeadOk size, w) ->
  self (verifyAsset r st) = incr_verified (self st)
  /\ sizeMismatches (self (verifyAsset r st)) = sizeMismatches (self st)
  /\ verified (self (verifyAsset r st)) = S (verified (self st)).
Proof.
  intros Hb Hp. unfold verifyAsset, ask, update. rewrite Hp.
  destruct Hb as [-> | ->]; cbn; auto.
Qed.

(** A raw asset of size 0 in front of an object of 4096 bytes. *)
Lemma verifyAsset_without_size_witness :
  let r := mkResource "raw/notes" None (Some 0%Z) None None None in
  let st := Stub.start new_Verifier
              (Stub.mkWorld (<["raw/notes.undefined" := 4096%Z]> ∅) true []) in
  self (verifyAsset r st) = incr_verified (self st)
  /\ sizeMismatches (self (verifyAsset r st)) = sizeMismatches (self st)
  /\ verified (self (verifyAsset r st)) = S (verified (self st)).
Proof.
  cbv zeta.
  apply (verifyAsset_without_size
           (mkResource "raw/notes" None (Some 0%Z) None None None) _
           4096%Z (Stub.mkWorld (<["raw/notes.undefined" := 4096%Z]> ∅) true [])).
  - right. reflexivity.
  - vm_compute. reflexivity.
Defined.

(** C1, as stated, fails: in the scenario the rate the verifier reports
    is not 33.33. *)
Lemma scenario_rate_is_not_a_third :
  successRate Scenario.report <> "33.33".
Proof. vm_compute. discriminate. Qed.

(** C1, amended. In the scenario the verifier counts A and B as verified,
    records B also as a size mismatch of 999 against 200, counts C as
    missing, and reports 66.67: verified / (verified + missing) x 100 to
    two decimals. *)
Theorem scenario_report :
  fst Scenario.run = Finished
  /\ verified Scenario.report = 2
  /\ missing Scenario.report = 1
  /\ sizeMismatches Scenario.report = [mkSizeMismatch "B" 999 200 "B.jpg"]
  /\ missingAssets Scenario.report = [mkMissingAsset "C" (Some "jpg") "C.jpg"]
  /\ total_checked Scenario.report = 3
  /\ successRate Scenario.report = "66.67"
  /\ report_saved Scenario.report = true.
Proof. vm_compute. repeat split. Qed.

(** ** Rules for the judgements *)

Section Logic.
Context {T World X : Type} `{Services World}.
Variable obs : St T World -> X.

Lemma keeps_ret {A} (a : A) : keeps obs (ret a).
Proof. intros st. reflexivity. Qed.

Lemma keeps_throw {A} (e : string) : keeps obs (@throw T World A e).
Proof. intros st. reflexivity. Qed.

Lemma keeps_bind {A B} (m : M T World A) (k : A -> M T World B) :
  keeps obs m -> (forall a, keeps obs (k a)) -> keeps obs (bind m k).
Proof.
  intros Hm Hk st. unfold bind. specialize (Hm st).
  destruct (m st) as [[a | e] st1]; cbn in *.
  - now rewrite Hk.
  - exact Hm.
Qed.

Lemma keeps_call {A} (ev : Event) (oracle : World -> A * World) :
  (forall st w, obs (mkSt (self st) (files st) (trace st ++ [ev]) w) = obs st) ->
  keeps obs (call ev oracle).
Proof.
  intros Hev st. unfold call, ask. destruct (oracle (world st)) as [a w]. apply Hev.
Qed.

Lemma keeps_emit (ev : Event) :
  (forall st w, obs (mkSt (self st) (files st) (trace st ++ [ev]) w) = obs st) ->
  keeps obs (emit ev).
Proof. intros Hev st. apply Hev. Qed.

Lemma keeps_update (f : T -> T) :
  (forall st, obs (mkSt (f (self st)) (files st) (trace st) (world st)) = obs st) ->
  keeps obs (update f).
Proof. intros Hf st. apply Hf. Qed.

Lemma keeps_set_files (f : gmap string string -> gmap string string) :
  (forall st fs, obs (mkSt (self st) fs (trace st) (world st)) = obs st) ->
  keeps obs (set_files f).
Proof. intros Hf st. apply Hf. Qed.

Lemma keeps_get_self : keeps obs get_self.
Proof. intros st. reflexivity. Qed.

Lemma keeps_look :
  (forall st fs, obs (mkSt (self st) fs (trace st) (world st)) = obs st) ->
  keeps obs look.
Proof. intros Hf st. apply Hf. Qed.

Lemma keeps_readFileSync (path : string) :
  (forall st fs, obs (mkSt (self st) fs (trace st) (world st)) = obs st) ->
  keeps obs (readFileSync path).
Proof.
  intros Hf. unfold readFileSync. apply keeps_bind; [now apply keeps_look |].
  intros found. destruct (found !! path); [apply keeps_ret | apply keeps_throw].
Qed.

Lemma keeps_unlinkSync (path : string) :
  (forall st fs, obs (mkSt (self st) fs (trace st) (world st)) = obs st) ->
  keeps obs (unlinkSync path).
Proof.
  intros Hf. unfold unlinkSync. apply keeps_bind; [now apply keeps_look |].
  intros found. destruct (found !! path); [now apply keeps_set_files | apply keeps_throw].
Qed.

End Logic.

Section Returns.
Context {T World : Type}.

Lemma returns_ret {A} (Q : A -> Prop) (a : A) : Q a -> returns (T:=T) (World:=World) Q (ret a).
Proof. intros Ha st b st' [= <- _]. exact Ha. Qed.

Lemma returns_throw {A} (Q : A -> Prop) (e : string) : returns Q (@throw T World A e).
Proof. intros st b st' E. discriminate E. Qed.

Lemma returns_bind {A B} (Q : B -> Prop) (m : M T World A) (k : A -> M T World B) :
  (forall a, returns Q (k a)) -> returns Q (bind m k).
Proof.
  intros Hk st b st' E. unfold bind in E.
  destruct (m st) as [[a | e] st1]; [eapply Hk; eauto | discriminate E].
Qed.

End Returns.

Lemma bind_assoc {T World A B C} (m : M T World A) (f : A -> M T World B)
    (g : B -> M T World C) (st : St T World) :
  bind (bind m f) g st = bind m (fun a => bind (f a) g) st.
Proof. unfold bind. now destruct (m st) as [[a | e] st1]. Qed.

Lemma bind_call {T World A B} (ev : Event) (oracle : World -> A * World)
    (k : A -> M T World B) (st : St T World) :
  bind (call ev oracle) k st
  = k (fst (oracle (world st)))
      (mkSt (self st) (files st) (trace st ++ [ev]) (snd (oracle (world st)))).
Proof. unfold bind, call, ask. now destruct (oracle (world st)). Qed.

Lemma calls_snoc {T World} (p : Event -> bool) (ev : Event) (st : St T World)
    (this : T) (fs : gmap string string) (w : World) :
  p ev = false ->
  calls p (mkSt this fs (trace st ++ [ev]) w) = calls p st.
Proof.
  intros Hp. unfold calls. cbn. rewrite List.filter_app. cbn. rewrite Hp. apply app_nil_r.
Qed.


Ltac keeps_step :=
  first
    [ apply keeps_ret
    | apply keeps_throw
    | apply keeps_readFileSync; intros; reflexivity
    | apply keeps_unlinkSync; intros; reflexivity
    | apply keeps_look; intros; reflexivity
    | apply keeps_get_self
    | apply keeps_bind; [| intros ?]
    | apply keeps_call; intros; first [reflexivity | apply calls_snoc; auto]
    | apply keeps_emit; intros; first [reflexivity | apply calls_snoc; auto]
    | apply keeps_update; intros; reflexivity
    | apply keeps_set_files; intros; reflexivity
    | match goal with
      | |- keeps _ (match ?x with _ => _ end) => destruct x
      end ].

Ltac returns_step :=
  first
    [ apply returns_throw
    | apply returns_ret; auto
    | apply returns_bind; intros ?
    | match goal with
      | |- returns _ (match ?x with _ => _ end) => destruct x
      end ].

(** ** The transfer worker *)

Section Worker.
Context {World : Type} `{Services World}.

#[local] Abbreviation State := (St Migrator World).

(** The worker leaves the counters and the policy alone. *)
Lemma migrateAsset_keeps_self (r : Resource) :
  keeps (World:=World) obs_self (migrateAsset r).
Proof.
  unfold migrateAsset, checkS3FileExists, transfer, downloadAsset, uploadToS3.
  repeat keeps_step.
Qed.

(** The fetch-persist-clean-up pipeline issues only its own calls. *)
Lemma transfer_keeps_calls (p : Event -> bool) (r : Resource) (s3Key : string) :
  (forall t, p (EvGet t) = false) ->
  (forall t, p (EvWriteStream t) = false) ->
  (forall t, p (EvUpload t) = false) ->
  keeps (calls (T:=Migrator) (World:=World) p) (transfer r s3Key).
Proof.
  intros Hg Hw Hu. unfold transfer, downloadAsset, uploadToS3. repeat keeps_step.
Qed.

(** The worker issues no catalog request. *)
Lemma migrateAsset_keeps_calls (p : Event -> bool) (r : Resource) :
  (forall ev, is_catalog_call ev = false -> p ev = false) ->
  keeps (calls (T:=Migrator) (World:=World) p) (migrateAsset r).
Proof.
  intros Hp. unfold migrateAsset, checkS3FileExists.
  repeat first [ apply transfer_keeps_calls; intros; apply Hp; reflexivity
               | keeps_step ].
Qed.

(** The worker answers ['migrated'] or ['skipped'], or throws. *)
Lemma migrateAsset_returns (r : Resource) :
  returns (T:=Migrator) (World:=World)
    (fun result => result = "migrated" \/ result = "skipped") (migrateAsset r).
Proof.
  unfold migrateAsset, checkS3FileExists, transfer, downloadAsset, uploadToS3.
  repeat returns_step.
Qed.

Lemma transfer_keeps_this (r : Resource) (s3Key : string) :
  keeps (T:=Migrator) (World:=World) self (transfer r s3Key).
Proof. unfold transfer, downloadAsset, uploadToS3. repeat keeps_step. Qed.

Lemma transfer_returns (r : Resource) (s3Key : string) :
  returns (T:=Migrator) (World:=World) (fun result => result = "migrated")
    (transfer r s3Key).
Proof. unfold transfer, downloadAsset, uploadToS3. repeat returns_step. Qed.


(** A format that is present always gets a content type. *)
Lemma getContentType_present (fmt : string) :
  exists contentType, getContentType (Some fmt) = Ok contentType.
Proof.
  unfold getContentType. cbv zeta.
  destruct (contentTypes !! JS.toLowerCase fmt); [now eexists |].
  destruct (existsb _ objectPrototype); now eexists.
Qed.

(** The pipeline from a download that arrived and was staged, when the
    staging path holds a file as the worker reads it: one upload of what
    the path holds; after an acknowledged upload the file is removed, if
    it is still there, and the worker throws if it is not. *)
Lemma transfer_staged (r : Resource) (s3Key target data body : string)
    (contentType : ContentTypeValue) (st : State) (w1 w2 : World) :
  let path := stagingPath (public_id r) (format r) in
  let staged := fs_others w2 (<[path := data]> (files st)) in
  let uploadParams :=
    mkUploadParams (if JS.truthy s3Key then s3Key else migrate_s3Key r) body contentType in
  let issued := trace st ++ [EvGet target; EvWriteStream path; EvUpload uploadParams] in
  JS.or_else (secure_url r) (url r) = Some target ->
  JS.truthy target = true ->
  axios_get target (world st) = (GetOk data, w1) ->
  stream_write path data w1 = (WriterFinish, w2) ->
  staged !! path = Some body ->
  getContentType (format r) = Ok contentType ->
  transfer r s3Key st
  = match s3_upload uploadParams w2 with
    | (UploadOk, w3) =>
        match fs_others w3 staged !! path with
        | Some _ =>
            (Ok "migrated", mkSt (self st) (delete path (fs_others w3 staged)) issued w3)
        | None =>
            (Throw ("ENOENT: no such file or directory, unlink '" +:+ path +:+ "'"),
             mkSt (self st) (fs_others w3 staged) issued w3)
        end
    | (UploadError e, w3) => (Throw e, mkSt (self st) staged issued w3)
    end.
Proof.
  cbv zeta. intros Hu Ht Hget Hwrite Hread Hct.
  unfold transfer. rewrite Hu, Ht.
  unfold downloadAsset, uploadToS3.
  rewrite bind_assoc, bind_call, Hget. cbn [fst snd].
  rewrite bind_assoc, bind_call. cbn [fst snd self files trace world].
  rewrite Hwrite. cbn [fst snd]. rewrite Hct.
  unfold migrate_s3Key, readFileSync, unlinkSync, look, bind, set_files, ret, throw,
    call, ask.
  cbn [fst snd self files trace world]. rewrite Hread.
  cbn [fst snd self files trace world].
  match goal with
  | |- context [s3_upload ?p w2] => destruct (s3_upload p w2) as [[| e] w3]
  end; cbn [fst snd self files trace world]; rewrite <- ?app_assoc; [| reflexivity].
  destruct (fs_others w3 _ !! _); reflexivity.
Qed.

(** Under the same conditions exactly one upload is issued, whatever the
    bucket answers. *)
Lemma transfer_uploads (r : Resource) (s3Key target data body : string)
    (contentType : ContentTypeValue) (st : State) (w1 w2 : World) :
  JS.or_else (secure_url r) (url r) = Some target ->
  JS.truthy target = true ->
  axios_get target (world st) = (GetOk data, w1) ->
  stream_write (stagingPath (public_id r) (format r)) data w1 = (WriterFinish, w2) ->
  fs_others w2 (<[stagingPath (public_id r) (format r) := data]> (files st))
    !! stagingPath (public_id r) (format r) = Some body ->
  getContentType (format r) = Ok contentType ->
  calls is_upload (snd (transfer r s3Key st))
  = calls is_upload st
    ++ [EvUpload (mkUploadParams (if JS.truthy s3Key then s3Key else migrate_s3Key r)
                    body contentType)].
Proof.
  intros Hu Ht Hget Hwrite Hread Hct.
  rewrite (transfer_staged r s3Key target data body contentType st w1 w2
             Hu Ht Hget Hwrite Hread Hct).
  destruct (s3_upload _ w2) as [[| e] w3]; [destruct (fs_others w3 _ !! _) |];
    unfold calls; cbn [snd trace]; rewrite List.filter_app; reflexivity.
Qed.

End Worker.



(** The same run, call by call: the object is overwritten without a probe. *)
Example forceOverwrite_run :
  let st := Stub.start
              (new_Migrator (parseArgs ["--force-overwrite"; "--skip-existing"]))
              (Stub.mkWorld (<["cloudinary/a.jpg" := 5%Z]> ∅) true []) in
  fst (migrateAsset Sample.asset st) = Ok "migrated"
  /\ trace (snd (migrateAsset Sample.asset st))
     = [EvGet "https://res.cloudinary.com/demo/image/upload/a.jpg";
        EvWriteStream "downloads/a.jpg";
        EvUpload (mkUploadParams "cloudinary/a.jpg"
                    "bytes of https://res.cloudinary.com/demo/image/upload/a.jpg"
                    (MimeType "image/jpeg"))]
  /\ files (snd (migrateAsset Sample.asset st)) !! "downloads/a.jpg" = None.
Proof. vm_compute. repeat split. Qed.

(** C3. When the upload is rejected the staging file stays: the asset is
    settled as failed and [downloads/a.jpg] still holds the download. The
    same transfer against a writable bucket removes it. *)
Theorem staging_file_survives_failed_upload :
  files (Sample.start false) !! "downloads/a.jpg" = None
  /\ fst (migrateAsset Sample.asset (Sample.start false)) = Throw "Access Denied"
  /\ files (snd (migrateAsset Sample.asset (Sample.start false))) !! "downloads/a.jpg"
     = Some "bytes of https://res.cloudinary.com/demo/image/upload/a.jpg"
  /\ failedCount (self (settle Sample.asset (Sample.start false))) = 1
  /\ files (settle Sample.asset (Sample.start false)) !! "downloads/a.jpg"
     = Some "bytes of https://res.cloudinary.com/demo/image/upload/a.jpg"
  /\ fst (migrateAsset Sample.asset (Sample.start true)) = Ok "migrated"
  /\ files (snd (migrateAsset Sample.asset (Sample.start true))) !! "downloads/a.jpg" = None.
Proof. vm_compute. repeat split. Qed.

(** Whatever the services answer, a rejected upload after a completed
    download leaves the staging file in place, as long as nobody else
    touches it. *)
Lemma rejected_upload_leaves_staging_file
    {World : Type} `{Services World} (r : Resource) (s3Key target data fmt e : string)
    (st : St Migrator World) (w1 w2 w3 : World) :
  JS.or_else (secure_url r) (url r) = Some target ->
  JS.truthy target = true ->
  format r = Some fmt ->
  axios_get target (world st) = (GetOk data, w1) ->
  stream_write (stagingPath (public_id r) (format r)) data w1 = (WriterFinish, w2) ->
  undisturbed (stagingPath (public_id r) (format r)) w2 ->
  (forall p, s3_upload p w2 = (UploadError e, w3)) ->
  fst (transfer r s3Key st) = Throw e
  /\ files (snd (transfer r s3Key st)) !! stagingPath (public_id r) (format r)
     = Some data.
Proof.
  intros Hu Ht Hf Hget Hwrite Hquiet Hput.
  destruct (getContentType_present fmt) as [contentType Hct]. rewrite <- Hf in Hct.
  assert (Hread : fs_others w2 (<[stagingPath (public_id r) (format r) := data]> (files st))
                    !! stagingPath (public_id r) (format r) = Some data).
  { rewrite Hquiet. apply lookup_insert_eq. }
  rewrite (transfer_staged r s3Key target data data contentType st w1 w2
             Hu Ht Hget Hwrite Hread Hct).
  rewrite Hput. cbn [fst snd files]. split; [reflexivity | exact Hread].
Qed.

(** ** The orchestrator *)

Section Orchestrator.
Context {World : Type} `{Services World}.

#[local] Abbreviation State := (St Migrator World).

Lemma ask_self {A} (ev : Event) (oracle : World -> A * World) (st : State) :
  self (snd (ask ev oracle st)) = self st.
Proof. unfold ask. now destruct (oracle (world st)). Qed.

Lemma ask_trace {A} (ev : Event) (oracle : World -> A * World) (st : State) :
  trace (snd (ask ev oracle st)) = trace st ++ [ev].
Proof. unfold ask. now destruct (oracle (world st)). Qed.

(** Each task moves exactly one of the three counters, by one. *)
Lemma settle_one_counter (r : Resource) (st : State) :
  let m := self st in
  let m' := self (settle r st) in
  totalCount m' = totalCount m
  /\ ((migratedCount m' = S (migratedCount m)
       /\ skippedCount m' = skippedCount m /\ failedCount m' = failedCount m)
      \/ (migratedCount m' = migratedCount m
          /\ skippedCount m' = S (skippedCount m) /\ failedCount m' = failedCount m)
      \/ (migratedCount m' = migratedCount m
          /\ skippedCount m' = skippedCount m /\ failedCount m' = S (failedCount m))).
Proof.
  cbv zeta. unfold settle.
  pose proof (migrateAsset_keeps_self r st) as Hk.
  pose proof (migrateAsset_returns r st) as Hr.
  destruct (migrateAsset r st) as [[result | e] st'] eqn:E; cbn [snd] in Hk;
    unfold obs_self, counts in Hk; injection Hk as Hmig Hskip Hfail Htot _.
  - destruct (Hr _ _ eq_refl) as [-> | ->]; cbn; lia.
  - cbn. lia.
Qed.

Lemma settle_settled (r : Resource) (st : State) :
  settled (self (settle r st)) = S (settled (self st))
  /\ totalCount (self (settle r st)) = totalCount (self st).
Proof.
  destruct (settle_one_counter r st) as [Ht Hc]. unfold settled. split; [lia | exact Ht].
Qed.

Lemma settle_all_settled (resources : list Resource) (st : State) :
  settled (self (settle_all resources st)) = settled (self st) + length resources
  /\ totalCount (self (settle_all resources st)) = totalCount (self st).
Proof.
  unfold settle_all. revert st.
  induction resources as [| r rs IH]; intros st; cbn [fold_left length].
  - split; [lia | reflexivity].
  - destruct (IH (settle r st)) as [Hs Ht].
    destruct (settle_settled r st) as [Hs1 Ht1]. split; [lia | congruence].
Qed.

(** With a limit of 1 or more the batch is the settling of its tasks. *)
Lemma processBatch_valid (env : Config) (resources : list Resource) (st : State) :
  (1 <= concurrency env)%Z ->
  processBatch env resources st = (Ok tt, settle_all resources st).
Proof.
  intros Hlimit. unfold processBatch, pLimit.
  now destruct (Z.leb_spec 1 (concurrency env)); [| lia].
Qed.

(** With any other limit the batch throws and nothing has happened. *)
Lemma processBatch_invalid (env : Config) (resources : list Resource) (st : State) :
  (concurrency env < 1)%Z ->
  exists e, processBatch env resources st = (Throw e, st).
Proof.
  intros Hlimit. unfold processBatch, pLimit.
  destruct (Z.leb_spec 1 (concurrency env)); [lia | now eexists].
Qed.

(** Either way the state after the batch is the state before it, or the
    state once every task has settled. *)
Lemma processBatch_cases (env : Config) (resources : list Resource) (st : State) :
  (exists e, processBatch env resources st = (Throw e, st))
  \/ processBatch env resources st = (Ok tt, settle_all resources st).
Proof.
  destruct (Z.leb_spec 1 (concurrency env)).
  - right. now apply processBatch_valid.
  - left. now apply processBatch_invalid.
Qed.

(** With a valid limit the loop keeps the counters balanced. *)
Lemma paginate_balanced (env : Config) (options : option string -> ResourcesOptions)
    (fuel : nat) :
  (1 <= concurrency env)%Z ->
  forall (nextCursor : option string) (st : State),
    settled (self st) = totalCount (self st) ->
    settled (self (snd (paginate env options fuel nextCursor st)))
    = totalCount (self (snd (paginate env options fuel nextCursor st))).
Proof.
  intros Hlimit.
  induction fuel as [| fuel IH]; intros nextCursor st Hbal; cbn [paginate].
  - exact Hbal.
  - pose proof (ask_self (EvResources (options nextCursor))
                  (api_resources (options nextCursor)) st) as Hself.
    destruct (ask _ _ st) as [[resources cursor | e] st1]; cbn [snd] in *.
    + set (st2 := snd (update (add_total (length resources)) st1)).
      rewrite (processBatch_valid env resources st2 Hlimit).
      destruct (settle_all_settled resources st2) as [Hs Ht].
      assert (Hbal3 : settled (self (settle_all resources st2))
                      = totalCount (self (settle_all resources st2))).
      { rewrite Hs, Ht. unfold st2, settled. cbn. rewrite Hself.
        unfold settled in Hbal. lia. }
      destruct (JS.truthy_field cursor); [now apply IH | exact Hbal3].
    + now rewrite Hself.
Qed.

End Orchestrator.

(** C6, as stated, fails: with [MIGRATION_CONCURRENCY=-1] the limiter cannot
    be made, the batch throws after [totalCount] has been raised by the
    three assets of the page, and the run ends with no asset settled. *)
Lemma invalid_limit_unbalances_counts :
  let final := self (snd (migrate InvalidLimit.env 10 InvalidLimit.start)) in
  fst (migrate InvalidLimit.env 10 InvalidLimit.start) = Broken
  /\ counts final = (0, 0, 0, 3)
  /\ migratedCount final + skippedCount final + failedCount final <> totalCount final.
Proof. vm_compute. repeat split. discriminate. Qed.

(** C6, amended. With a concurrency limit of 1 or more (the default 10
    included) a run of [migrate] started on a fresh migrator ends with
    [migrated + skipped + failed = totalCount], however it ends (no cursor
    left, a rejected catalog request, or still looping after [fuel]
    pages), and every task moves exactly one of the three counters. *)
Theorem aggregate_counts_balance
    {World : Type} `{Services World} (env : Config) (options : Options) (fuel : nat)
    (fs : gmap string string) (tr : list Event) (w : World) :
  (1 <= concurrency env)%Z ->
  let final := self (snd (migrate env fuel (mkSt (new_Migrator options) fs tr w))) in
  migratedCount final + skippedCount final + failedCount final = totalCount final
  /\ forall (r : Resource) (st : St Migrator World),
       settled (self (settle r st)) = S (settled (self st))
       /\ totalCount (self (settle r st)) = totalCount (self st).
Proof.
  intros Hlimit. cbv zeta. split.
  - apply (paginate_balanced env (migrate_options env) fuel Hlimit None). reflexivity.
  - intros r st. apply settle_settled.
Qed.

(** The three-page catalog under the default limit. *)
Lemma aggregate_counts_balance_witness :
  let final := self (snd (migrate ThreePages.env 10 ThreePages.start)) in
  (1 <= concurrency ThreePages.env)%Z
  /\ migratedCount final + skippedCount final + failedCount final = totalCount final
  /\ forall (r : Resource) (st : St Migrator Stub.World),
       settled (self (settle r st)) = S (settled (self st))
       /\ totalCount (self (settle r st)) = totalCount (self st).
Proof.
  cbv zeta. split; [vm_compute; discriminate |].
  apply (aggregate_counts_balance ThreePages.env (mkOptions None None) 10 ∅ []
           (Stub.mkWorld ∅ true ThreePages.catalog)).
  vm_compute. discriminate.
Defined.

(** A run cut short by a rejected catalog request is balanced too. *)
Example broken_run_balances :
  let st := Stub.start (new_Migrator (mkOptions None None))
              (Stub.mkWorld (<["cloudinary/p2.jpg" := 1%Z]> ∅) true
                 [Page [ThreePages.asset "p1"; ThreePages.asset "p2";
                        mkResource "p3" (Some "jpg") None None None None]
                    (Some "c2")]) in
  fst (migrate ThreePages.env 10 st) = Broken
  /\ counts (self (snd (migrate ThreePages.env 10 st))) = (1, 1, 1, 3).
Proof. vm_compute. split; reflexivity. Qed.

(** ** Pagination *)

Section Pagination.
Context {World : Type} `{Services World}.

#[local] Abbreviation State := (St Migrator World).

Lemma settle_keeps_calls (p : Event -> bool) (r : Resource) (st : State) :
  (forall ev, is_catalog_call ev = false -> p ev = false) ->
  calls p (settle r st) = calls p st.
Proof.
  intros Hp. unfold settle.
  pose proof (migrateAsset_keeps_calls p r Hp st) as Hk.
  destruct (migrateAsset r st) as [[result | e] st']; cbn [snd] in Hk.
  - destruct (String.eqb result "migrated"); [exact Hk |].
    destruct (String.eqb result "skipped"); exact Hk.
  - exact Hk.
Qed.

Lemma settle_all_keeps_calls (p : Event -> bool) (resources : list Resource) :
  (forall ev, is_catalog_call ev = false -> p ev = false) ->
  forall st : State, calls p (settle_all resources st) = calls p st.
Proof.
  intros Hp. unfold settle_all.
  induction resources as [| r rs IH]; intros st; cbn [fold_left].
  - reflexivity.
  - rewrite IH. now apply settle_keeps_calls.
Qed.

Lemma processBatch_keeps_calls (env : Config) (p : Event -> bool)
    (resources : list Resource) :
  (forall ev, is_catalog_call ev = false -> p ev = false) ->
  forall st : State, calls p (snd (processBatch env resources st)) = calls p st.
Proof.
  intros Hp st.
  destruct (processBatch_cases env resources st) as [[e ->] | ->]; cbn [snd];
    [reflexivity | now apply settle_all_keeps_calls].
Qed.

Lemma resources_only_catalog (ev : Event) :
  is_catalog_call ev = false -> is_resources ev = false.
Proof. now destruct ev. Qed.

(** A page costs one catalog request, its batch none. *)
Lemma page_counts_once (env : Config) (request : ResourcesOptions) (st st1 : State)
    (resources : list Resource) (cursor : option string) :
  ask (EvResources request) (api_resources request) st = (Page resources cursor, st1) ->
  length (calls is_resources
            (snd (processBatch env resources
                    (snd (update (add_total (length resources)) st1)))))
  = length (calls is_resources st) + 1.
Proof.
  intros Hask.
  rewrite (processBatch_keeps_calls env is_resources resources resources_only_catalog).
  pose proof (ask_trace (EvResources request) (api_resources request) st) as Ht.
  rewrite Hask in Ht. cbn [snd] in Ht. unfold calls, update. cbn [snd trace].
  rewrite Ht, List.filter_app, length_app. reflexivity.
Qed.

(** With a valid limit a catalog with [k] pages left is exhausted by [k]
    requests, and by no fewer. *)
Lemma paginate_pages (env : Config) (options : option string -> ResourcesOptions)
    (k : nat) (nextCursor : option string) (st : State) :
  (1 <= concurrency env)%Z ->
  yields_pages env options k nextCursor st ->
  forall fuel,
    (k <= fuel ->
     fst (paginate env options fuel nextCursor st) = Finished
     /\ length (calls is_resources (snd (paginate env options fuel nextCursor st)))
        = length (calls is_resources st) + k)
    /\ (fuel < k ->
        fst (paginate env options fuel nextCursor st) = Pending
        /\ length (calls is_resources (snd (paginate env options fuel nextCursor st)))
           = length (calls is_resources st) + fuel).
Proof.
  intros Hlimit.
  induction 1 as [nextCursor st resources cursor st1 Hask Hlast
                 | k nextCursor st resources cursor st1 Hask Hmore Hrest IH];
    intros fuel.
  - pose proof (page_counts_once env _ _ _ _ _ Hask) as Hone.
    split; intros Hf.
    + destruct fuel as [| fuel]; [lia |]. cbn [paginate]. rewrite Hask.
      rewrite (processBatch_valid env resources _ Hlimit) in Hone |- *.
      rewrite Hlast. split; [reflexivity | exact Hone].
    + assert (fuel = 0) as -> by lia. cbn [paginate fst snd]. split; [reflexivity | lia].
  - pose proof (page_counts_once env _ _ _ _ _ Hask) as Hone.
    destruct fuel as [| fuel].
    + split; intros Hf; [lia |]. cbn [paginate fst snd]. split; [reflexivity | lia].
    + cbn [paginate]. rewrite Hask.
      rewrite (processBatch_valid env resources _ Hlimit) in Hone, IH |- *.
      rewrite Hmore. cbn [snd] in Hone, IH.
      destruct (IH fuel) as [Hge Hlt]. split; intros Hf.
      * destruct Hge as [Hexit Hn]; [lia |]. split; [exact Hexit | lia].
      * destruct Hlt as [Hexit Hn]; [lia |]. split; [exact Hexit | lia].
Qed.

End Pagination.

(** C8, as stated, fails: the catalog has three pages (the replies to the
    first two requests carry a cursor, the reply to the third carries
    none), but with [MIGRATION_CONCURRENCY=-1] the first batch throws and
    the loop stops after one request. *)
Lemma invalid_limit_stops_after_one_request :
  yields_pages InvalidLimit.env (migrate_options InvalidLimit.env) 3 None ThreePages.start
  /\ fst (migrate InvalidLimit.env 3 ThreePages.start) = Broken
  /\ calls is_resources (snd (migrate InvalidLimit.env 3 ThreePages.start))
     = [EvResources (migrate_options InvalidLimit.env None)].
Proof.
  split; [| vm_compute; split; reflexivity].
  eapply yields_next; [vm_compute; reflexivity | reflexivity |].
  eapply yields_next; [vm_compute; reflexivity | reflexivity |].
  eapply yields_last; [vm_compute; reflexivity | reflexivity].
Qed.

(** C8, amended. With a concurrency limit of 1 or more (the default 10
    included), when the catalog has [k] pages left from the start (the
    replies to the first [k - 1] requests carry a cursor, the reply to the
    [k]-th carries none), [migrate] stops after exactly [k] catalog
    requests: with room for [k] iterations or more it finishes having
    issued [k], and after fewer iterations it is still looping. *)
Theorem pagination_one_request_per_page
    {World : Type} `{Services World} (env : Config) (k : nat) (st : St Migrator World) :
  (1 <= concurrency env)%Z ->
  yields_pages env (migrate_options env) k None st ->
  forall fuel,
    (k <= fuel ->
     fst (migrate env fuel st) = Finished
     /\ length (calls is_resources (snd (migrate env fuel st)))
        = length (calls is_resources st) + k)
    /\ (fuel < k -> fst (migrate env fuel st) = Pending).
Proof.
  intros Hlimit Hy fuel. destruct (paginate_pages _ _ _ _ _ Hlimit Hy fuel) as [Hge Hlt].
  split; [exact Hge |]. intros Hf. now destruct (Hlt Hf).
Qed.

(** The three-page catalog is exhausted by three requests. *)
Lemma pagination_one_request_per_page_witness :
  fst (migrate ThreePages.env 3 ThreePages.start) = Finished
  /\ length (calls is_resources (snd (migrate ThreePages.env 3 ThreePages.start)))
     = length (calls is_resources ThreePages.start) + 3.
Proof.
  assert (Hlimit : (1 <= concurrency ThreePages.env)%Z) by (vm_compute; discriminate).
  assert (Hy : yields_pages ThreePages.env (migrate_options ThreePages.env) 3 None
                 ThreePages.start).
  { eapply yields_next; [vm_compute; reflexivity | reflexivity |].
    eapply yields_next; [vm_compute; reflexivity | reflexivity |].
    eapply yields_last; [vm_compute; reflexivity | reflexivity]. }
  destruct (pagination_one_request_per_page ThreePages.env 3 ThreePages.start Hlimit Hy 3)
    as [Hge _].
  apply Hge. lia.
Defined.

(** With a limit below 1 the run stops at its first page: the request is
    answered, [totalCount] is raised by the length of the page, the batch
    throws, and nothing else has happened. *)
Lemma paginate_invalid_limit
    {World : Type} `{Services World} (env : Config)
    (options : option string -> ResourcesOptions) (fuel : nat)
    (nextCursor : option string) (st : St Migrator World)
    (resources : list Resource) (cursor : option string) (w1 : World) :
  (concurrency env < 1)%Z ->
  api_resources (options nextCursor) (world st) = (Page resources cursor, w1) ->
  paginate env options (S fuel) nextCursor st
  = (Broken,
     mkSt (add_total (length resources) (self st)) (files st)
       (trace st ++ [EvResources (options nextCursor)]) w1).
Proof.
  intros Hlimit Hpage. cbn [paginate]. unfold ask. rewrite Hpage.
  match goal with
  | |- context [processBatch env resources ?s] =>
      destruct (processBatch_invalid env resources s Hlimit) as [e ->]
  end.
  reflexivity.
Qed.

(** The three-page run, request by request. *)
Example three_pages_run :
  calls is_resources (snd (migrate ThreePages.env 10 ThreePages.start))
  = [EvResources (migrate_options ThreePages.env None);
     EvResources (migrate_options ThreePages.env (Some "c2"));
     EvResources (migrate_options ThreePages.env (Some "c3"))]
  /\ counts (self (snd (migrate ThreePages.env 10 ThreePages.start))) = (4, 0, 0, 4).
Proof. vm_compute. split; reflexivity. Qed.

(** ** Explicit identifier lists *)

Lemma slice_step {A} (l : list A) (i : nat) :
  slice l i (i + 100) ++ skipn (i + 100) l = skipn i l.
Proof.
  unfold slice. replace (i + 100 - i) with 100 by lia.
  replace (i + 100) with (100 + i) by lia.
  rewrite <- skipn_skipn. apply firstn_skipn.
Qed.

Lemma slice_length {A} (l : list A) (i : nat) :
  i < length l ->
  1 <= length (slice l i (i + 100)) <= 100.
Proof.
  intros Hi. unfold slice. replace (i + 100 - i) with 100 by lia.
  rewrite length_firstn, length_skipn. lia.
Qed.

Lemma ceil_step (n i : nat) :
  i < n -> (n - i + 99) / 100 = S ((n - (i + 100) + 99) / 100).
Proof.
  intros Hi. destruct (Nat.le_gt_cases 100 (n - i)) as [Hbig | Hsmall].
  - replace (n - i + 99) with ((n - (i + 100) + 99) + 1 * 100) by lia.
    rewrite Nat.div_add by lia. lia.
  - replace (n - (i + 100)) with 0 by lia.
    replace (n - i + 99) with ((n - i - 1) + 1 * 100) by lia.
    rewrite Nat.div_add by lia.
    rewrite (Nat.div_small (n - i - 1)) by lia.
    rewrite (Nat.div_small (0 + 99)) by lia. reflexivity.
Qed.

(** The loop, given one iteration per remaining identifier, cuts the rest
    of the list into consecutive slices. *)
Lemma batches_from_spec (publicIds : list string) (fuel : nat) :
  forall (i : nat) (batches : list (list string)),
    length publicIds <= i + fuel ->
    concat (batches_from fuel i publicIds batches) = concat batches ++ skipn i publicIds
    /\ length (batches_from fuel i publicIds batches)
       = length batches + (length publicIds - i + 99) / 100
    /\ (Forall (fun b => 1 <= length b <= 100) batches ->
        Forall (fun b => 1 <= length b <= 100) (batches_from fuel i publicIds batches)).
Proof.
  induction fuel as [| fuel IH]; intros i batches Hfuel; cbn [batches_from].
  - rewrite skipn_all2 by lia. rewrite app_nil_r.
    replace (length publicIds - i) with 0 by lia.
    rewrite (Nat.div_small (0 + 99)) by lia. repeat split; [lia | auto].
  - destruct (Nat.ltb_spec i (length publicIds)) as [Hi | Hi].
    + destruct (IH (i + 100) (batches ++ [slice publicIds i (i + 100)])) as (Hc & Hl & Hb);
        [lia |].
      repeat split.
      * rewrite Hc, concat_app. cbn [concat]. rewrite app_nil_r, <- app_assoc.
        now rewrite slice_step.
      * rewrite Hl, length_app, (ceil_step (length publicIds) i Hi). cbn [length]. lia.
      * intros Hall. apply Hb. apply Forall_app. split; [exact Hall |].
        constructor; [now apply slice_length | constructor].
    + rewrite skipn_all2 by lia. rewrite app_nil_r.
      replace (length publicIds - i) with 0 by lia.
      rewrite (Nat.div_small (0 + 99)) by lia. repeat split; [lia | auto].
Qed.

Lemma split_batches_spec (publicIds : list string) :
  concat (split_batches publicIds) = publicIds
  /\ length (split_batches publicIds) = (length publicIds + 99) / 100
  /\ Forall (fun b => 1 <= length b <= 100) (split_batches publicIds).
Proof.
  unfold split_batches.
  destruct (batches_from_spec publicIds (length publicIds) 0 []) as (Hc & Hl & Hb);
    [lia |].
  repeat split.
  - rewrite Hc. reflexivity.
  - rewrite Hl. cbn [length]. now rewrite Nat.sub_0_r.
  - apply Hb. constructor.
Qed.

Section Lookups.
Context {World : Type} `{Services World}.
Variable env : Config.

#[local] Abbreviation State := (St Migrator World).

(** A batch costs one direct lookup and nothing else of the catalog. *)
Lemma lookup_batch_calls (st : State) (batch : list string) :
  calls is_catalog_call (lookup_batch env st batch)
  = calls is_catalog_call st ++ [EvResourcesByIds batch].
Proof.
  unfold lookup_batch.
  pose proof (ask_trace (EvResourcesByIds batch) (api_resources_by_ids batch) st) as Ht.
  destruct (ask _ _ st) as [[resources cursor | e] st1]; cbn [snd] in Ht.
  - rewrite (processBatch_keeps_calls env is_catalog_call resources (fun ev E => E)).
    unfold calls, update. cbn [snd trace]. rewrite Ht, List.filter_app. reflexivity.
  - unfold calls. rewrite Ht, List.filter_app. reflexivity.
Qed.

Lemma migrateByPublicIds_calls (publicIds : list string) (st : State) :
  calls is_catalog_call (migrateByPublicIds env publicIds st)
  = calls is_catalog_call st ++ map EvResourcesByIds (split_batches publicIds).
Proof.
  unfold migrateByPublicIds. generalize (split_batches publicIds) as batches.
  intros batches. revert st.
  induction batches as [| batch batches IH]; intros st; cbn [fold_left map].
  - now rewrite app_nil_r.
  - rewrite IH, lookup_batch_calls, <- app_assoc. reflexivity.
Qed.

(** With a valid limit the selective run keeps the counters balanced as
    well. *)
Lemma lookup_batch_balanced (st : State) (batch : list string) :
  (1 <= concurrency env)%Z ->
  settled (self st) = totalCount (self st) ->
  settled (self (lookup_batch env st batch))
  = totalCount (self (lookup_batch env st batch)).
Proof.
  intros Hlimit Hbal. unfold lookup_batch.
  pose proof (ask_self (EvResourcesByIds batch) (api_resources_by_ids batch) st) as Hself.
  destruct (ask _ _ st) as [[resources cursor | e] st1]; cbn [snd] in Hself.
  - set (st2 := snd (update (add_total (length resources)) st1)).
    rewrite (processBatch_valid env resources st2 Hlimit). cbn [snd].
    destruct (settle_all_settled resources st2) as [Hs Ht].
    rewrite Hs, Ht. unfold st2, settled. cbn. rewrite Hself.
    unfold settled in Hbal. lia.
  - now rewrite Hself.
Qed.

Lemma selective_migrate_balanced (options : SelectiveOptions) (fuel : nat) (st : State) :
  (1 <= concurrency env)%Z ->
  settled (self st) = totalCount (self st) ->
  settled (self (snd (selective_migrate env options fuel st)))
  = totalCount (self (snd (selective_migrate env options fuel st))).
Proof.
  intros Hlimit Hbal. unfold selective_migrate.
  assert (Hids : forall publicIds,
             settled (self (migrateByPublicIds env publicIds st))
             = totalCount (self (migrateByPublicIds env publicIds st))).
  { intros publicIds. unfold migrateByPublicIds.
    generalize (split_batches publicIds) as batches. intros batches.
    revert st Hbal. induction batches as [| batch batches IH]; intros st Hbal;
      cbn [fold_left]; [exact Hbal |].
    apply IH. now apply lookup_batch_balanced. }
  destruct (sel_publicIds options) as [[| id ids] |]; cbn [snd];
    try apply Hids; now apply paginate_balanced.
Qed.

End Lookups.

(** C7. A non-empty explicit list of [n] identifiers is cut into
    [ceil(n / 100)] batches, written [(n + 99) / 100], each of 1 to 100
    identifiers, which put end to end give the list back; the selective run
    issues one direct lookup per batch, in order, and no other catalog
    request. *)
Theorem explicit_list_lookups
    {World : Type} `{Services World} (env : Config) (options : SelectiveOptions)
    (publicIds : list string) (fuel : nat) (st : St Migrator World) :
  sel_publicIds options = Some publicIds ->
  0 < length publicIds ->
  concat (split_batches publicIds) = publicIds
  /\ length (split_batches publicIds) = (length publicIds + 99) / 100
  /\ Forall (fun b => 1 <= length b <= 100) (split_batches publicIds)
  /\ calls is_catalog_call (snd (selective_migrate env options fuel st))
     = calls is_catalog_call st ++ map EvResourcesByIds (split_batches publicIds).
Proof.
  intros Hids Hn. destruct (split_batches_spec publicIds) as (Hc & Hl & Hb).
  repeat split; try assumption.
  unfold selective_migrate. rewrite Hids.
  destruct publicIds as [| id ids]; [cbn in Hn; lia |].
  cbn [snd]. apply migrateByPublicIds_calls.
Qed.

(** 250 identifiers. *)
Lemma explicit_list_lookups_witness :
  length ExplicitList.ids = 250
  /\ concat (split_batches ExplicitList.ids) = ExplicitList.ids
  /\ length (split_batches ExplicitList.ids) = (length ExplicitList.ids + 99) / 100
  /\ Forall (fun b => 1 <= length b <= 100) (split_batches ExplicitList.ids)
  /\ calls is_catalog_call
       (snd (selective_migrate ThreePages.env ExplicitList.options 0 ExplicitList.start))
     = calls is_catalog_call ExplicitList.start
       ++ map EvResourcesByIds (split_batches ExplicitList.ids).
Proof.
  split; [reflexivity |].
  apply (explicit_list_lookups ThreePages.env ExplicitList.options ExplicitList.ids 0
           ExplicitList.start).
  - reflexivity.
  - vm_compute. lia.
Defined.

(** The 250 identifiers go out as batches of 100, 100 and 50. *)
Example explicit_list_batches :
  map (@length string) (split_batches ExplicitList.ids) = [100; 100; 50]
  /\ (length ExplicitList.ids + 99) / 100 = 3.
Proof. vm_compute. split; reflexivity. Qed.

(** * Further properties of the scripts *)

(** ** The worker, path by path *)

Section WorkerPaths.
Context {World : Type} `{Services World}.

#[local] Abbreviation State := (St Migrator World).

(** The worker, one step unfolded. *)
Lemma migrateAsset_unfold (r : Resource) (st : State) :
  migrateAsset r st
  = if skipExisting (self st) && negb (forceOverwrite (self st))
    then match checkS3FileExists (migrate_s3Key r) st with
         | (Ok true, st1) =>
             (Ok "skipped",
              mkSt (push_skipped
                      (mkSkippedAsset (public_id r) (migrate_s3Key r) "already_exists")
                      (self st1))
                (files st1) (trace st1) (world st1))
         | (Ok false, st1) => transfer r (migrate_s3Key r) st1
         | (Throw e, st1) => (Throw e, st1)
         end
    else transfer r (migrate_s3Key r) st.
Proof.
  unfold migrateAsset, bind at 1, get_self.
  destruct (skipExisting (self st) && negb (forceOverwrite (self st))); [| reflexivity].
  unfold bind at 1.
  destruct (checkS3FileExists (migrate_s3Key r) st) as [[[|] | e] st1]; reflexivity.
Qed.

(** What the worker does to [this]: one skip entry when it answers
    ['skipped'], nothing otherwise. *)
Lemma migrateAsset_self (r : Resource) (st : State) :
  self (snd (migrateAsset r st))
  = if match fst (migrateAsset r st) with
       | Ok result => String.eqb result "skipped"
       | Throw _ => false
       end
    then push_skipped (mkSkippedAsset (public_id r) (migrate_s3Key r) "already_exists")
           (self st)
    else self st.
Proof.
  assert (Ht : forall st1 : State, self st1 = self st ->
            self (snd (transfer r (migrate_s3Key r) st1))
            = if match fst (transfer r (migrate_s3Key r) st1) with
                 | Ok result => String.eqb result "skipped"
                 | Throw _ => false
                 end
              then push_skipped
                     (mkSkippedAsset (public_id r) (migrate_s3Key r) "already_exists")
                     (self st)
              else self st).
  { intros st1 Hs. rewrite (transfer_keeps_this r (migrate_s3Key r) st1), Hs.
    destruct (transfer r (migrate_s3Key r) st1) as [[result | e] st2] eqn:Et;
      cbn [fst]; [| reflexivity].
    apply transfer_returns in Et. now subst result. }
  rewrite migrateAsset_unfold.
  destruct (skipExisting (self st) && negb (forceOverwrite (self st)));
    [| now apply Ht].
  destruct (checkS3FileExists_conservative (migrate_s3Key r) st)
    as (_ & _ & Hself & _).
  destruct (checkS3FileExists (migrate_s3Key r) st) as [[[|] | e] st1];
    cbn [fst snd self] in *.
  - now rewrite Hself.
  - now apply Ht.
  - exact Hself.
Qed.

Lemma skipped_iff_found (r : Resource) (st : State) :
  fst (migrateAsset r st) = Ok "skipped"
  <-> skipExisting (self st) && negb (forceOverwrite (self st)) = true
      /\ exists size, fst (s3_headObject (migrate_s3Key r) (world st)) = HeadOk size.
Proof.
  assert (Ht : forall st1 : State,
            fst (transfer r (migrate_s3Key r) st1) <> Ok "skipped").
  { intros st1 E.
    destruct (transfer r (migrate_s3Key r) st1) as [[result | e] st2] eqn:Et;
      cbn [fst] in E; [| discriminate E].
    apply transfer_returns in Et. subst result. discriminate E. }
  rewrite migrateAsset_unfold.
  destruct (skipExisting (self st) && negb (forceOverwrite (self st))).
  - destruct (checkS3FileExists_conservative (migrate_s3Key r) st)
      as ((answer & Hans & Hiff) & _).
    destruct (checkS3FileExists (migrate_s3Key r) st) as [[[|] | e] st1];
      cbn [fst snd] in *; [| | discriminate Hans]; injection Hans as <-.
    + split; [intros _ | reflexivity]. split; [reflexivity | now apply Hiff].
    + split; [intros E; now apply Ht in E |].
      intros [_ Hex]. apply Hiff in Hex. discriminate Hex.
  - split; [intros E; now apply Ht in E | intros [E _]; discriminate E].
Qed.

(** X1. The worker answers ['skipped'] exactly when the policy asks for the
    existence check and the probe finds the object. *)
Theorem migrateAsset_skips_iff (r : Resource) (st : State) :
  fst (migrateAsset r st) = Ok "skipped"
  <-> skipExisting (self st) && negb (forceOverwrite (self st)) = true
      /\ exists size, fst (s3_headObject (migrate_s3Key r) (world st)) = HeadOk size.
Proof. apply skipped_iff_found. Qed.

(** X2. A skip is one probe and one entry: nothing is downloaded, staged or
    uploaded. *)
Theorem skip_is_probe_and_entry (r : Resource) (st : State) (size : Z) (w : World) :
  skipExisting (self st) && negb (forceOverwrite (self st)) = true ->
  s3_headObject (migrate_s3Key r) (world st) = (HeadOk size, w) ->
  migrateAsset r st
  = (Ok "skipped",
     mkSt (push_skipped (mkSkippedAsset (public_id r) (migrate_s3Key r) "already_exists")
             (self st))
       (files st) (trace st ++ [EvHeadObject (migrate_s3Key r)]) w).
Proof.
  intros Hg Hp. rewrite migrateAsset_unfold, Hg.
  unfold checkS3FileExists, bind, call, ask, ret. rewrite Hp. reflexivity.
Qed.

(** Without a delivery URL the pipeline throws at once: no call, no file. *)
Lemma transfer_without_url (r : Resource) (s3Key : string) (st : State) :
  JS.truthy_field (JS.or_else (secure_url r) (url r)) = false ->
  transfer r s3Key st = (Throw ("No downloadable URL found for " +:+ public_id r), st).
Proof.
  intros Hu. unfold transfer.
  destruct (JS.or_else (secure_url r) (url r)) as [target |]; [| reflexivity].
  cbn in Hu. now rewrite Hu.
Qed.

(** X3. A descriptor without a delivery URL is never transferred: the worker
    skips it or throws "No downloadable URL found", and issues no
    download, staging write or upload. *)
Theorem no_url_no_transfer (r : Resource) (st : State) :
  JS.truthy_field (JS.or_else (secure_url r) (url r)) = false ->
  (fst (migrateAsset r st) = Ok "skipped"
   \/ fst (migrateAsset r st) = Throw ("No downloadable URL found for " +:+ public_id r))
  /\ files (snd (migrateAsset r st)) = files st
  /\ calls is_transfer_call (snd (migrateAsset r st)) = calls is_transfer_call st.
Proof.
  intros Hu. rewrite migrateAsset_unfold.
  destruct (skipExisting (self st) && negb (forceOverwrite (self st))).
  - destruct (checkS3FileExists_conservative (migrate_s3Key r) st)
      as ((answer & Hans & _) & Htr & _ & Hfiles & _).
    assert (Hcalls : calls is_transfer_call
                       (snd (checkS3FileExists (migrate_s3Key r) st))
                     = calls is_transfer_call st).
    { unfold calls. rewrite Htr, List.filter_app. cbn [List.filter is_transfer_call].
      destruct (fst (s3_headObject (migrate_s3Key r) (world st))) as [? | code ?];
        [| destruct (String.eqb code "NotFound")]; cbn; apply app_nil_r. }
    destruct (checkS3FileExists (migrate_s3Key r) st) as [[[|] | e] st1];
      cbn [fst snd] in *.
    + auto.
    + rewrite (transfer_without_url r _ st1 Hu). cbn [fst snd]. auto.
    + discriminate Hans.
  - rewrite (transfer_without_url r _ st Hu). cbn [fst snd]. auto.
Qed.

Lemma migrate_s3Key_truthy (r : Resource) : JS.truthy (migrate_s3Key r) = true.
Proof. reflexivity. Qed.

(** X4. A rejected download ends the transfer before anything is staged or
    uploaded. *)
Theorem rejected_download_stages_nothing
    (r : Resource) (s3Key target e : string) (st : State) (w1 : World) :
  JS.or_else (secure_url r) (url r) = Some target ->
  JS.truthy target = true ->
  axios_get target (world st) = (GetError e, w1) ->
  transfer r s3Key st
  = (Throw e, mkSt (self st) (files st) (trace st ++ [EvGet target]) w1).
Proof.
  intros Hu Ht Hget. unfold transfer. rewrite Hu, Ht.
  unfold downloadAsset. rewrite bind_assoc, bind_call, Hget. reflexivity.
Qed.

(** X5. The whole pipeline when every service answers well and nobody else
    touches the staging path meanwhile: one download, one staging write,
    one upload of the downloaded bytes under the migrator's key with what
    [getContentType] gives for the format, and the staging file is gone. *)
Theorem transfer_success
    (r : Resource) (target data : string) (contentType : ContentTypeValue)
    (st : State) (w1 w2 w3 : World) :
  JS.or_else (secure_url r) (url r) = Some target ->
  JS.truthy target = true ->
  getContentType (format r) = Ok contentType ->
  axios_get target (world st) = (GetOk data, w1) ->
  stream_write (stagingPath (public_id r) (format r)) data w1 = (WriterFinish, w2) ->
  undisturbed (stagingPath (public_id r) (format r)) w2 ->
  s3_upload (mkUploadParams (migrate_s3Key r) data contentType) w2 = (UploadOk, w3) ->
  undisturbed (stagingPath (public_id r) (format r)) w3 ->
  transfer r (migrate_s3Key r) st
  = (Ok "migrated",
     mkSt (self st)
       (delete (stagingPath (public_id r) (format r))
          (fs_others w3
             (fs_others w2 (<[stagingPath (public_id r) (format r) := data]> (files st)))))
       (trace st ++ [EvGet target;
                     EvWriteStream (stagingPath (public_id r) (format r));
                     EvUpload (mkUploadParams (migrate_s3Key r) data contentType)])
       w3)
  /\ files (snd (transfer r (migrate_s3Key r) st)) !! stagingPath (public_id r) (format r)
     = None.
Proof.
  intros Hu Ht Hct Hget Hwrite Hquiet2 Hput Hquiet3.
  assert (Hread : fs_others w2 (<[stagingPath (public_id r) (format r) := data]> (files st))
                    !! stagingPath (public_id r) (format r) = Some data).
  { rewrite Hquiet2. apply lookup_insert_eq. }
  rewrite (transfer_staged r (migrate_s3Key r) target data data contentType st w1 w2
             Hu Ht Hget Hwrite Hread Hct).
  change (JS.truthy (migrate_s3Key r)) with true. cbv iota.
  rewrite Hput, Hquiet3, Hread. cbn [snd files].
  split; [reflexivity | apply lookup_delete_eq].
Qed.

(** Without a format the upload throws before the request is made. *)
Lemma uploadToS3_without_format (filePath : string) (r : Resource) (s3Key : string)
    (st : State) :
  format r = None ->
  exists e,
    uploadToS3 filePath r s3Key st
    = (Throw e, mkSt (self st) (fs_others (world st) (files st)) (trace st) (world st)).
Proof.
  intros Hf. unfold uploadToS3, readFileSync, look, bind. rewrite Hf.
  cbn [fst snd]. destruct (fs_others (world st) (files st) !! filePath); cbn; eauto.
Qed.

Lemma downloadAsset_keeps_uploads (target publicId : string) (fmt : option string) :
  keeps (calls (T:=Migrator) (World:=World) is_upload) (downloadAsset target publicId fmt).
Proof. unfold downloadAsset. repeat keeps_step. Qed.

Lemma transfer_without_format (r : Resource) (s3Key : string) (st : State) :
  format r = None ->
  exists e st', transfer r s3Key st = (Throw e, st')
                /\ calls is_upload st' = calls is_upload st.
Proof.
  intros Hf. unfold transfer.
  destruct (JS.or_else (secure_url r) (url r)) as [target |];
    [destruct (JS.truthy target) |];
    try (unfold throw; do 2 eexists; split; reflexivity).
  unfold bind at 1.
  pose proof (downloadAsset_keeps_uploads target (public_id r) (format r) st) as Hk.
  destruct (downloadAsset target (public_id r) (format r) st) as [[path | e] st1];
    cbn [fst snd] in *; [| now do 2 eexists].
  unfold bind at 1.
  destruct (uploadToS3_without_format path r s3Key st1 Hf) as [e ->].
  do 2 eexists. split; [reflexivity | exact Hk].
Qed.

(** X6. A descriptor without a format (a raw asset) is never uploaded: the
    worker cannot answer ['migrated'] and issues no upload. *)
Theorem no_format_never_uploaded (r : Resource) (st : State) :
  format r = None ->
  fst (migrateAsset r st) <> Ok "migrated"
  /\ calls is_upload (snd (migrateAsset r st)) = calls is_upload st.
Proof.
  intros Hf. rewrite migrateAsset_unfold.
  destruct (skipExisting (self st) && negb (forceOverwrite (self st))).
  - destruct (checkS3FileExists_conservative (migrate_s3Key r) st)
      as ((answer & Hans & _) & Htr & _).
    assert (Hcalls : calls is_upload (snd (checkS3FileExists (migrate_s3Key r) st))
                     = calls is_upload st).
    { unfold calls. rewrite Htr, List.filter_app. cbn [List.filter is_upload].
      destruct (fst (s3_headObject (migrate_s3Key r) (world st))) as [? | code ?];
        [| destruct (String.eqb code "NotFound")]; cbn; apply app_nil_r. }
    destruct (checkS3FileExists (migrate_s3Key r) st) as [[[|] | e] st1];
      cbn [fst snd] in *; [| | discriminate Hans].
    + split; [discriminate | exact Hcalls].
    + destruct (transfer_without_format r (migrate_s3Key r) st1 Hf) as (e & st2 & -> & Hu).
      cbn [fst snd]. rewrite Hu. split; [discriminate | exact Hcalls].
  - destruct (transfer_without_format r (migrate_s3Key r) st Hf) as (e & st2 & -> & Hu).
    cbn [fst snd]. split; [discriminate | exact Hu].
Qed.

(** A transfer that answers ['migrated'] ends on an acknowledged upload
    under its key. *)
Lemma transfer_migrated_uploaded (r : Resource) (s3Key : string) (st st' : State) :
  JS.truthy s3Key = true ->
  transfer r s3Key st = (Ok "migrated", st') ->
  exists p w, Key p = s3Key /\ s3_upload p w = (UploadOk, world st').
Proof.
  intros Hk. unfold transfer.
  destruct (JS.or_else (secure_url r) (url r)) as [target |];
    [destruct (JS.truthy target) |]; try discriminate.
  unfold downloadAsset, uploadToS3. rewrite bind_assoc, bind_call, Hk.
  destruct (axios_get target (world st)) as [[data | e] w1]; cbn [fst snd];
    [| discriminate].
  rewrite bind_assoc, bind_call. cbn [fst snd self files trace world].
  destruct (stream_write _ data w1) as [[| e left_behind] w2]; cbn [fst snd].
  - unfold readFileSync, unlinkSync, look, bind, set_files, ret, call, ask, throw.
    cbn [fst snd self files trace world].
    destruct (fs_others w2 _ !! _) as [body |]; [| discriminate].
    destruct (getContentType (format r)) as [contentType | e]; [| discriminate].
    cbn [fst snd self files trace world].
    match goal with
    | |- context [s3_upload ?p w2] => destruct (s3_upload p w2) as [[| e] w3] eqn:Hput
    end; cbn [fst snd self files trace world]; [| discriminate].
    destruct (fs_others w3 _ !! _); [| discriminate].
    intros [= <-]. cbn [world].
    do 2 eexists. split; [| exact Hput]. reflexivity.
  - unfold bind, set_files, throw. discriminate.
Qed.

(** X7. Run again, the worker skips what it has just migrated, provided the
    bucket shows an object once its upload is acknowledged. *)
Theorem rerun_skips (r : Resource) (st : State) :
  (forall p w w', s3_upload p w = (UploadOk, w') ->
     exists size, fst (s3_headObject (Key p) w') = HeadOk size) ->
  skipExisting (self st) && negb (forceOverwrite (self st)) = true ->
  fst (migrateAsset r st) = Ok "migrated" ->
  fst (migrateAsset r (snd (migrateAsset r st))) = Ok "skipped".
Proof.
  intros Hstore Hg Hm. apply skipped_iff_found.
  pose proof (migrateAsset_self r st) as Hself. rewrite Hm in Hself.
  change (self (snd (migrateAsset r st)) = self st) in Hself.
  rewrite Hself. split; [exact Hg |].
  revert Hm. rewrite migrateAsset_unfold, Hg.
  destruct (checkS3FileExists (migrate_s3Key r) st) as [[[|] | e] st1];
    cbn [fst snd]; try discriminate.
  intros Hm.
  destruct (transfer r (migrate_s3Key r) st1) as [[result | e] st2] eqn:Et;
    cbn [fst snd] in *; [| discriminate Hm].
  injection Hm as ->.
  destruct (transfer_migrated_uploaded r _ st1 st2 (migrate_s3Key_truthy r) Et)
    as (p & w & Hkey & Hput).
  rewrite <- Hkey. eapply Hstore. exact Hput.
Qed.

End WorkerPaths.

(** [a.jpg], already stored, in front of the default policy. *)
Lemma skip_is_probe_and_entry_witness :
  let st := Stub.start (new_Migrator (mkOptions None None))
              (Stub.mkWorld (<["cloudinary/a.jpg" := 5%Z]> ∅) true []) in
  migrateAsset Sample.asset st
  = (Ok "skipped",
     mkSt (push_skipped (mkSkippedAsset "a" "cloudinary/a.jpg" "already_exists") (self st))
       (files st) (trace st ++ [EvHeadObject "cloudinary/a.jpg"]) (world st)).
Proof.
  cbv zeta.
  apply (skip_is_probe_and_entry Sample.asset
           (Stub.start (new_Migrator (mkOptions None None))
              (Stub.mkWorld (<["cloudinary/a.jpg" := 5%Z]> ∅) true []))
           5%Z (Stub.mkWorld (<["cloudinary/a.jpg" := 5%Z]> ∅) true [])).
  - reflexivity.
  - vm_compute. reflexivity.
Defined.

(** A descriptor with an empty [secure_url] and no [url]. *)
Lemma no_url_no_transfer_witness :
  let r := mkResource "orphan" (Some "png") (Some 7%Z) None (Some "") None in
  let st := Sample.start true in
  (fst (migrateAsset r st) = Ok "skipped"
   \/ fst (migrateAsset r st) = Throw ("No downloadable URL found for " +:+ public_id r))
  /\ files (snd (migrateAsset r st)) = files st
  /\ calls is_transfer_call (snd (migrateAsset r st)) = calls is_transfer_call st.
Proof.
  cbv zeta.
  apply (no_url_no_transfer (mkResource "orphan" (Some "png") (Some 7%Z) None (Some "") None)
           (Sample.start true)).
  reflexivity.
Defined.

(** The download of [a.jpg] times out. *)
Lemma rejected_download_stages_nothing_witness :
  transfer Sample.asset (migrate_s3Key Sample.asset) Outage.start
  = (Throw "timeout of 30000ms exceeded",
     mkSt (self Outage.start) (files Outage.start)
       (trace Outage.start
        ++ [EvGet "https://res.cloudinary.com/demo/image/upload/a.jpg"])
       (Outage.mkWorld 1)).
Proof.
  apply (rejected_download_stages_nothing Sample.asset (migrate_s3Key Sample.asset)
           "https://res.cloudinary.com/demo/image/upload/a.jpg"
           "timeout of 30000ms exceeded" Outage.start (Outage.mkWorld 1));
    reflexivity.
Defined.

(** [a.jpg] into an empty writable bucket. *)
Lemma transfer_success_witness :
  let r := Sample.asset in
  let st := Sample.start true in
  let path := stagingPath (public_id r) (format r) in
  let data := "bytes of https://res.cloudinary.com/demo/image/upload/a.jpg" in
  let w2 := Stub.mkWorld ∅ true [] in
  let w3 := Stub.mkWorld (<["cloudinary/a.jpg" := Z.of_nat (String.length data)]> ∅)
              true [] in
  path = "downloads/a.jpg"
  /\ transfer r (migrate_s3Key r) st
     = (Ok "migrated",
        mkSt (self st)
          (delete path (fs_others w3 (fs_others w2 (<[path := data]> (files st)))))
          (trace st ++ [EvGet "https://res.cloudinary.com/demo/image/upload/a.jpg";
                        EvWriteStream path;
                        EvUpload (mkUploadParams (migrate_s3Key r) data
                                    (MimeType "image/jpeg"))])
          w3)
  /\ files (snd (transfer r (migrate_s3Key r) st)) !! path = None.
Proof.
  cbv zeta. split; [reflexivity |].
  apply (transfer_success Sample.asset
           "https://res.cloudinary.com/demo/image/upload/a.jpg"
           "bytes of https://res.cloudinary.com/demo/image/upload/a.jpg"
           (MimeType "image/jpeg") (Sample.start true)
           (Stub.mkWorld ∅ true []) (Stub.mkWorld ∅ true [])
           (Stub.mkWorld
              (<["cloudinary/a.jpg"
                 := Z.of_nat (String.length
                      "bytes of https://res.cloudinary.com/demo/image/upload/a.jpg")]> ∅)
              true []));
    try reflexivity; intros fs; reflexivity.
Defined.

(** The same pipeline next to a worker that stages at the same path: the
    download, the staging write and the upload all succeed, yet the bytes
    uploaded are the other asset's and the worker throws at the removal of
    a file that is no longer there. *)
Example shared_staging_run :
  migrateAsset SharedStaging.asset SharedStaging.start
  = (Throw "ENOENT: no such file or directory, unlink 'downloads/a_b.jpg'",
     mkSt (self SharedStaging.start) ∅
       [EvHeadObject "cloudinary/a_b.jpg";
        EvGet "https://res.cloudinary.com/demo/image/upload/a_b.jpg";
        EvWriteStream "downloads/a_b.jpg";
        EvUpload (mkUploadParams "cloudinary/a_b.jpg" "bytes of a/b" (MimeType "image/jpeg"))]
       (SharedStaging.mkWorld 1))
  /\ failedCount (self (settle SharedStaging.asset SharedStaging.start)) = 1.
Proof. vm_compute. split; reflexivity. Qed.

(** A raw asset: no format in the descriptor. *)
Lemma no_format_never_uploaded_witness :
  let r := mkResource "docs/readme.txt" None (Some 12%Z) None
             (Some "https://res.cloudinary.com/demo/raw/upload/docs/readme.txt") None in
  fst (migrateAsset r (Sample.start true)) <> Ok "migrated"
  /\ calls is_upload (snd (migrateAsset r (Sample.start true)))
     = calls is_upload (Sample.start true).
Proof.
  cbv zeta.
  apply (no_format_never_uploaded
           (mkResource "docs/readme.txt" None (Some 12%Z) None
              (Some "https://res.cloudinary.com/demo/raw/upload/docs/readme.txt") None)
           (Sample.start true)).
  reflexivity.
Defined.

(** The scripted bucket shows what it has stored; [a.jpg] is migrated, then
    skipped. *)
Lemma rerun_skips_witness :
  fst (migrateAsset Sample.asset (Sample.start true)) = Ok "migrated"
  /\ fst (migrateAsset Sample.asset (snd (migrateAsset Sample.asset (Sample.start true))))
     = Ok "skipped".
Proof.
  split; [reflexivity |].
  apply (rerun_skips Sample.asset (Sample.start true)).
  - intros p w w' Hput. cbn in Hput. unfold Stub.put in Hput.
    destruct (Stub.writable w); [| discriminate Hput].
    injection Hput as <-. cbn. unfold Stub.head. cbn.
    rewrite lookup_insert_eq. eauto.
  - reflexivity.
  - reflexivity.
Defined.

(** ** Lists, counters and the summary files *)

Section Bookkeeping.
Context {World : Type} `{Services World}.

#[local] Abbreviation State := (St Migrator World).

Lemma settle_lists_agree (r : Resource) (st : State) :
  lists_agree (self st) -> lists_agree (self (settle r st)).
Proof.
  unfold lists_agree, settle. intros [Hf Hs].
  pose proof (migrateAsset_self r st) as Hself.
  pose proof (migrateAsset_returns r st) as Hr.
  destruct (migrateAsset r st) as [[result | e] st'] eqn:E; cbn [fst snd] in Hself.
  - destruct (Hr _ _ eq_refl) as [-> | ->]; cbn in Hself |- *; rewrite Hself; cbn.
    + auto.
    + rewrite length_app. cbn. lia.
  - cbn. rewrite Hself, length_app. cbn. lia.
Qed.

Lemma settle_all_lists_agree (resources : list Resource) (st : State) :
  lists_agree (self st) -> lists_agree (self (settle_all resources st)).
Proof.
  unfold settle_all. revert st.
  induction resources as [| r rs IH]; intros st Hl; cbn [fold_left]; [exact Hl |].
  apply IH. now apply settle_lists_agree.
Qed.

Lemma processBatch_lists_agree (env : Config) (resources : list Resource) (st : State) :
  lists_agree (self st) -> lists_agree (self (snd (processBatch env resources st))).
Proof.
  intros Hl.
  destruct (processBatch_cases env resources st) as [[e ->] | ->]; cbn [snd];
    [exact Hl | now apply settle_all_lists_agree].
Qed.

Lemma paginate_lists_agree (env : Config) (options : option string -> ResourcesOptions)
    (fuel : nat) :
  forall (nextCursor : option string) (st : State),
    lists_agree (self st) ->
    lists_agree (self (snd (paginate env options fuel nextCursor st))).
Proof.
  induction fuel as [| fuel IH]; intros nextCursor st Hl; cbn [paginate]; [exact Hl |].
  pose proof (ask_self (EvResources (options nextCursor))
                (api_resources (options nextCursor)) st) as Hself.
  destruct (ask _ _ st) as [[resources cursor | e] st1]; cbn [snd] in *.
  - assert (Hl3 : lists_agree
                    (self (snd (processBatch env resources
                                  (snd (update (add_total (length resources)) st1)))))).
    { apply processBatch_lists_agree. cbn. rewrite Hself. exact Hl. }
    destruct (processBatch env resources _) as [[[] | e] st3]; cbn [snd] in *;
      [| exact Hl3].
    destruct (JS.truthy_field cursor); [now apply IH | exact Hl3].
  - now rewrite Hself.
Qed.

Lemma lookup_batch_lists_agree (env : Config) (st : State) (batch : list string) :
  lists_agree (self st) -> lists_agree (self (lookup_batch env st batch)).
Proof.
  intros Hl. unfold lookup_batch.
  pose proof (ask_self (EvResourcesByIds batch) (api_resources_by_ids batch) st) as Hself.
  destruct (ask _ _ st) as [[resources cursor | e] st1]; cbn [snd] in Hself.
  - apply processBatch_lists_agree. cbn. rewrite Hself. exact Hl.
  - now rewrite Hself.
Qed.

Lemma selective_migrate_lists_agree (env : Config) (options : SelectiveOptions)
    (fuel : nat) (st : State) :
  lists_agree (self st) ->
  lists_agree (self (snd (selective_migrate env options fuel st))).
Proof.
  intros Hl. unfold selective_migrate.
  assert (Hids : forall publicIds,
             lists_agree (self (migrateByPublicIds env publicIds st))).
  { intros publicIds. unfold migrateByPublicIds.
    generalize (split_batches publicIds) as batches. intros batches.
    revert st Hl. induction batches as [| batch batches IH]; intros st Hl;
      cbn [fold_left]; [exact Hl |].
    apply IH. now apply lookup_batch_lists_agree. }
  destruct (sel_publicIds options) as [[| id ids] |]; cbn [snd];
    try apply Hids; now apply paginate_lists_agree.
Qed.

End Bookkeeping.

Lemma fresh_lists_agree (options : Options) : lists_agree (new_Migrator options).
Proof. split; reflexivity. Qed.

Lemma migrate_lists_agree
    {World : Type} `{Services World} (env : Config) (options : Options) (fuel : nat)
    (fs : gmap string string) (tr : list Event) (w : World) :
  lists_agree (self (snd (migrate env fuel (mkSt (new_Migrator options) fs tr w)))).
Proof.
  apply (paginate_lists_agree env (migrate_options env) fuel None). apply fresh_lists_agree.
Qed.

(** X8. At the end of a run started on a fresh migrator, plain or selective,
    the failed list has [failedCount] entries and the skipped list
    [skippedCount] entries. *)
Theorem lists_match_counters
    {World : Type} `{Services World} (env : Config) (options : Options)
    (selection : SelectiveOptions) (fuel : nat)
    (fs : gmap string string) (tr : list Event) (w : World) :
  let st := mkSt (new_Migrator options) fs tr w in
  lists_agree (self (snd (migrate env fuel st)))
  /\ lists_agree (self (snd (selective_migrate env selection fuel st))).
Proof.
  cbv zeta. split.
  - apply migrate_lists_agree.
  - apply selective_migrate_lists_agree. apply fresh_lists_agree.
Qed.

(** X9. The files [printSummary] writes after a run are decided by the
    counters: the two skipped files when [skippedCount] is positive, the
    failed file when [failedCount] is positive, each with the whole list. *)
Theorem summary_files_follow_counters
    {World : Type} `{Services World} (env : Config) (options : Options) (fuel : nat)
    (fs : gmap string string) (tr : list Event) (w : World) :
  let final := self (snd (migrate env fuel (mkSt (new_Migrator options) fs tr w))) in
  summary_files final
  = (if (0 <? skippedCount final)%nat
     then [SkippedAssetsFile (skippedAssets final);
           SkippedMigrationsFile (skippedAssets final)]
     else [])
    ++ (if (0 <? failedCount final)%nat
        then [FailedAssetsFile (failedAssets final)]
        else []).
Proof.
  cbv zeta.
  destruct (migrate_lists_agree env options fuel fs tr w) as [Hf Hs].
  unfold summary_files. now rewrite Hf, Hs.
Qed.

(** ** The command line of [migrate.js] *)

Lemma parseArg_force (o : Options) (arg : string) :
  opt_forceOverwrite (parseArg o arg) = Some true
  <-> opt_forceOverwrite o = Some true \/ arg = "--force-overwrite".
Proof.
  unfold parseArg.
  destruct (String.eqb_spec arg "--skip-existing") as [-> | _];
    [cbn; split; [auto | intros [E | E]; [exact E | discriminate E]] |].
  destruct (String.eqb_spec arg "--no-skip-existing") as [-> | _];
    [cbn; split; [auto | intros [E | E]; [exact E | discriminate E]] |].
  destruct (String.eqb_spec arg "--force-overwrite") as [-> | Hne]; cbn.
  - split; auto.
  - split; [auto | intros [E | E]; [exact E | contradiction]].
Qed.

Lemma parseArgs_force (args : list string) (o : Options) :
  opt_forceOverwrite (fold_left parseArg args o) = Some true
  <-> opt_forceOverwrite o = Some true \/ In "--force-overwrite" args.
Proof.
  revert o. induction args as [| arg args IH]; intros o; cbn [fold_left In].
  - split; [auto | intros [E | []]; exact E].
  - rewrite IH, parseArg_force. intuition auto.
Qed.

(** X10. [--force-overwrite] sticks: the migrator overwrites exactly when the
    flag stands somewhere on the command line, whatever follows it. *)
Theorem forceOverwrite_iff_flag (args : list string) :
  forceOverwrite (new_Migrator (parseArgs args)) = true
  <-> In "--force-overwrite" args.
Proof.
  unfold parseArgs.
  pose proof (parseArgs_force args (mkOptions None None)) as Hf. cbn in Hf.
  unfold new_Migrator. cbn [forceOverwrite].
  destruct (opt_forceOverwrite (fold_left parseArg args (mkOptions None None)))
    as [[|] |].
  - split; [intros _ | reflexivity].
    destruct (proj1 Hf eq_refl) as [E | E]; [discriminate E | exact E].
  - split; [discriminate |]. intros Hin.
    assert (E : Some false = Some true) by (apply Hf; auto). discriminate E.
  - split; [discriminate |]. intros Hin.
    assert (E : @None bool = Some true) by (apply Hf; auto). discriminate E.
Qed.

Lemma parseArg_skip (o : Options) (arg : string) :
  opt_skipExisting (parseArg o arg)
  = if is_policy_flag arg then Some (String.eqb arg "--skip-existing")
    else opt_skipExisting o.
Proof.
  unfold parseArg, is_policy_flag.
  destruct (String.eqb_spec arg "--skip-existing") as [-> | _]; [reflexivity |].
  destruct (String.eqb_spec arg "--no-skip-existing") as [-> | _]; [reflexivity |].
  destruct (String.eqb_spec arg "--force-overwrite") as [-> | _]; reflexivity.
Qed.

(** X11. [skipExisting] follows the last policy flag of the command line: set
    by [--skip-existing], cleared by [--no-skip-existing] and by
    [--force-overwrite]; without any of them it is set. *)
Theorem skipExisting_follows_last_flag (args : list string) :
  skipExisting (new_Migrator (parseArgs args))
  = match last_policy_flag args with
    | Some flag => String.eqb flag "--skip-existing"
    | None => true
    end.
Proof.
  unfold parseArgs, last_policy_flag.
  assert (Hs : opt_skipExisting (fold_left parseArg args (mkOptions None None))
               = (fun flag => String.eqb flag "--skip-existing")
                   <$> last (List.filter is_policy_flag args)).
  { induction args as [| arg args IH] using rev_ind; [reflexivity |].
    rewrite fold_left_app, List.filter_app. cbn [fold_left List.filter].
    rewrite parseArg_skip, IH.
    destruct (is_policy_flag arg).
    - now rewrite last_snoc.
    - now rewrite app_nil_r. }
  unfold new_Migrator. cbn [skipExisting]. rewrite Hs.
  destruct (last (List.filter is_policy_flag args)) as [flag |]; cbn; [| reflexivity].
  now destruct (String.eqb flag "--skip-existing").
Qed.

(** ** Content types, keys and staging names *)

Lemma lower_char_idempotent (c : ascii) : JS.lower_char (JS.lower_char c) = JS.lower_char c.
Proof.
  destruct c as [[|] [|] [|] [|] [|] [|] [|] [|]]; reflexivity.
Qed.

Lemma toLowerCase_idempotent (s : string) :
  JS.toLowerCase (JS.toLowerCase s) = JS.toLowerCase s.
Proof.
  induction s as [| c s IH]; cbn [JS.toLowerCase]; [reflexivity |].
  now rewrite lower_char_idempotent, IH.
Qed.

(** Of the names every object inherits, two are in lower case. *)
Lemma inherited_lower_case (key : string) :
  existsb (String.eqb (JS.toLowerCase key)) objectPrototype = true ->
  JS.toLowerCase key = "constructor" \/ JS.toLowerCase key = "__proto__".
Proof.
  intros Hin. apply existsb_exists in Hin. destruct Hin as (name & Hname & Heq).
  apply String.eqb_eq in Heq.
  assert (Hlow : JS.toLowerCase name = name).
  { rewrite <- Heq. apply toLowerCase_idempotent. }
  unfold objectPrototype in Hname. cbn [In] in Hname.
  repeat (destruct Hname as [<- | Hname]; [try discriminate Hlow; auto |]).
  destruct Hname.
Qed.

(** X12. [getContentType] ignores the case of the format and never throws on
    a format that is present. It answers a text that is not empty, save for
    the two formats whose lower case names a property every object
    inherits, [constructor] and [__proto__]: for these it answers that
    property, which is no text, instead of the generic type. *)
Theorem getContentType_ignores_case (fmt : string) :
  getContentType (Some (JS.toLowerCase fmt)) = getContentType (Some fmt)
  /\ (exists contentType, getContentType (Some fmt) = Ok contentType)
  /\ (JS.toLowerCase fmt <> "constructor" ->
      JS.toLowerCase fmt <> "__proto__" ->
      exists text, getContentType (Some fmt) = Ok (MimeType text) /\ JS.truthy text = true)
  /\ (JS.toLowerCase fmt = "constructor" \/ JS.toLowerCase fmt = "__proto__" ->
      getContentType (Some fmt) = Ok (Inherited (JS.toLowerCase fmt))).
Proof.
  split; [| split; [apply getContentType_present | split]].
  - unfold getContentType. cbv zeta. now rewrite toLowerCase_idempotent.
  - intros Hc Hp. unfold getContentType. cbv zeta.
    destruct (contentTypes !! JS.toLowerCase fmt) as [t |].
    + destruct (JS.truthy t) eqn:Et; now eexists.
    + destruct (existsb _ objectPrototype) eqn:Hin; [| now eexists].
      apply inherited_lower_case in Hin. destruct Hin; contradiction.
  - intros [E | E]; unfold getContentType; cbv zeta; rewrite E; reflexivity.
Qed.

(** The formats [JPG] and [Constructor]. *)
Example getContentType_sample :
  getContentType (Some "JPG") = Ok (MimeType "image/jpeg")
  /\ getContentType (Some "tiff") = Ok (MimeType "application/octet-stream")
  /\ getContentType (Some "Constructor") = Ok (Inherited "constructor")
  /\ getContentType (Some "toString") = Ok (MimeType "application/octet-stream").
Proof. vm_compute. repeat split. Qed.

(** X13. Two descriptors of one format get the same destination key only when
    they have the same identifier. *)
Theorem migrate_s3Key_injective (r1 r2 : Resource) :
  format r1 = format r2 ->
  migrate_s3Key r1 = migrate_s3Key r2 ->
  public_id r1 = public_id r2.
Proof.
  unfold migrate_s3Key. intros -> E.
  cbn [String.append] in E. injection E as E.
  change (public_id r1 +:+ ("." +:+ JS.interp (format r2))
          = public_id r2 +:+ ("." +:+ JS.interp (format r2))) in E.
  now apply append_inv_tail in E.
Qed.

Lemma migrate_s3Key_injective_witness :
  let r1 := mkResource "shoes/red" (Some "png") (Some 10%Z) None None None in
  let r2 := mkResource "shoes/red" (Some "png") (Some 20%Z) (Some "shoes") None None in
  public_id r1 = public_id r2.
Proof.
  cbv zeta.
  apply (migrate_s3Key_injective
           (mkResource "shoes/red" (Some "png") (Some 10%Z) None None None)
           (mkResource "shoes/red" (Some "png") (Some 20%Z) (Some "shoes") None None));
    reflexivity.
Defined.

(** X14. The staging name flattens the identifier: it has the identifier's
    length, no ["/"] is left in it, and an identifier without ["/"] is
    kept as it is. *)
Theorem replace_slashes_flattens (s : string) :
  String.length (JS.replace_slashes s) = String.length s
  /\ (forall i, String.get i (JS.replace_slashes s) <> Some "/"%char)
  /\ ((forall i, String.get i s <> Some "/"%char) -> JS.replace_slashes s = s).
Proof.
  induction s as [| c s (IHl & IHn & IHi)]; cbn [JS.replace_slashes String.length].
  - split; [reflexivity |]. split; [intros i; now destruct i | reflexivity].
  - split; [now rewrite IHl |]. split.
    + intros [| i]; cbn [String.get]; [| apply IHn].
      destruct (Ascii.eqb_spec c "/"); [discriminate | congruence].
    + intros Hno. destruct (Ascii.eqb_spec c "/") as [-> | _].
      * now specialize (Hno 0).
      * f_equal. apply IHi. intros i. apply (Hno (S i)).
Qed.

(** ** The verifier's bookkeeping *)

Section VerifierFacts.
Context {World : Type} `{Services World}.

#[local] Abbreviation VState := (St Verifier World).

Lemma ask_verifier_self {A} (ev : Event) (oracle : World -> A * World) (st : VState) :
  self (snd (ask ev oracle st)) = self st
  /\ files (snd (ask ev oracle st)) = files st
  /\ trace (snd (ask ev oracle st)) = trace st ++ [ev].
Proof. unfold ask. now destruct (oracle (world st)). Qed.

(** One asset: one probe under the verifier's key, at most one more asset
    counted, and the lists stay behind the counters. *)
Lemma verifyAsset_step (r : Resource) (st : VState) :
  trace (verifyAsset r st) = trace st ++ [EvHeadObject (verify_s3Key r)]
  /\ files (verifyAsset r st) = files st
  /\ total_checked (self st) <= total_checked (self (verifyAsset r st))
     <= S (total_checked (self st))
  /\ (verifier_consistent (self st) -> verifier_consistent (self (verifyAsset r st))).
Proof.
  unfold verifyAsset, ask, total_checked, verifier_consistent.
  destruct (s3_headObject (verify_s3Key r) (world st)) as [[size | code message] w].
  - destruct (bytes r) as [b |];
      [destruct (JS.truthy_num (Some b) && negb (size =? b)%Z) |];
      cbn; rewrite ?length_app; cbn;
      (split; [reflexivity | split; [reflexivity | split;
         [lia | intros [? ?]; split; [assumption | lia]]]]).
  - destruct (String.eqb code "NotFound");
      cbn; rewrite ?length_app; cbn;
      (split; [reflexivity | split; [reflexivity | split;
         [lia | intros [? ?]; split; lia]]]).
Qed.

Lemma verifyBatch_steps (resources : list Resource) (st : VState) :
  trace (verifyBatch resources st)
  = trace st ++ map (fun r => EvHeadObject (verify_s3Key r)) resources
  /\ files (verifyBatch resources st) = files st
  /\ total_checked (self st) <= total_checked (self (verifyBatch resources st))
     <= total_checked (self st) + length resources
  /\ (verifier_consistent (self st) ->
      verifier_consistent (self (verifyBatch resources st))).
Proof.
  unfold verifyBatch. revert st.
  induction resources as [| r rs IH]; intros st; cbn [fold_left map length].
  - rewrite app_nil_r. split; [reflexivity |]. split; [reflexivity |].
    split; [lia | auto].
  - destruct (IH (verifyAsset r st)) as (Ht & Hf & Hc & Hi).
    destruct (verifyAsset_step r st) as (Ht1 & Hf1 & Hc1 & Hi1).
    rewrite Ht, Ht1, <- app_assoc, Hf, Hf1.
    split; [reflexivity |]. split; [reflexivity |]. split; [lia | auto].
Qed.

Lemma verify_loop_consistent (resourceType deliveryType : string) (sampleSize : option Z)
    (fuel : nat) :
  forall (nextCursor : option string) (processed : Z) (st : VState),
    verifier_consistent (self st) ->
    verifier_consistent
      (self (snd (verify_loop resourceType deliveryType sampleSize fuel nextCursor
                    processed st))).
Proof.
  induction fuel as [| fuel IH]; intros nextCursor processed st Hc; cbn [verify_loop].
  - now destruct (_ || _).
  - destruct (_ || _); [| exact Hc].
    match goal with
    | |- context [ask ?ev ?o st] =>
        destruct (ask_verifier_self ev o st) as (Hself & _);
        destruct (ask ev o st) as [[resources cursor | e] st1]
    end; cbn [snd] in *.
    + assert (Hc2 : verifier_consistent (self (verifyBatch resources st1))).
      { apply verifyBatch_steps. now rewrite Hself. }
      destruct (_ && _); [now apply IH | exact Hc2].
    + now rewrite Hself.
Qed.

End VerifierFacts.

(** X15. A verification started on a fresh verifier ends with as many missing
    entries as [missing] counts and no more size mismatches than assets
    counted as verified. *)
Theorem verifier_lists_follow_counters
    {World : Type} `{Services World} (resourceType deliveryType : string)
    (sampleSize : option Z) (fuel : nat)
    (fs : gmap string string) (tr : list Event) (w : World) :
  let final := self (snd (verify resourceType deliveryType sampleSize fuel
                            (mkSt new_Verifier fs tr w))) in
  length (missingAssets final) = missing final
  /\ length (sizeMismatches final) <= verified final.
Proof.
  cbv zeta. apply verify_loop_consistent. split; [reflexivity | apply Nat.le_refl].
Qed.


Lemma verify_loop_sample_zero
    {World : Type} `{Services World} (resourceType deliveryType : string) (fuel : nat) :
  forall (nextCursor : option string) (processed : Z) (st : St Verifier World),
    verify_loop resourceType deliveryType (Some 0%Z) fuel nextCursor processed st
    = verify_loop resourceType deliveryType None fuel nextCursor processed st.
Proof.
  induction fuel as [| fuel IH]; intros nextCursor processed st;
    cbn [verify_loop JS.truthy_num Z.eqb negb orb andb]; [reflexivity |].
  match goal with
  | |- context [ask ?ev ?o st] => destruct (ask ev o st) as [[resources cursor | e] st1]
  end; [| reflexivity].
  destruct (JS.truthy_field cursor); cbn [andb]; [apply IH | reflexivity].
Qed.

(** X17. A sample size of 0 is no sample size: the whole catalog is verified. *)
Theorem verify_sample_zero_is_everything
    {World : Type} `{Services World} (resourceType deliveryType : string) (fuel : nat)
    (st : St Verifier World) :
  verify resourceType deliveryType (Some 0%Z) fuel st
  = verify resourceType deliveryType None fuel st.
Proof. apply verify_loop_sample_zero. Qed.

Section Sampling.
Context {World : Type} `{Services World}.

#[local] Abbreviation VState := (St Verifier World).

Lemma verifyBatch_heads (resources : list Resource) (st : VState) :
  length (calls is_head (verifyBatch resources st))
  = length (calls is_head st) + length resources.
Proof.
  destruct (verifyBatch_steps resources st) as (Ht & _).
  unfold calls. rewrite Ht, List.filter_app, length_app. f_equal.
  clear Ht. induction resources as [| r rs IH]; [reflexivity |].
  cbn [map List.filter is_head length]. now rewrite IH.
Qed.

(** With a sample size the loop probes what is left of the sample at
    most. *)
Lemma verify_loop_sample (resourceType deliveryType : string) (n : Z) (fuel : nat) :
  (forall request w resources cursor w',
     api_resources request w = (Page resources cursor, w') ->
     (Z.of_nat (length resources) <= Z.max 0 (max_results request))%Z) ->
  n <> 0%Z ->
  forall (nextCursor : option string) (processed : Z) (st : VState),
    length (calls is_head
              (snd (verify_loop resourceType deliveryType (Some n) fuel nextCursor
                      processed st)))
    <= length (calls is_head st) + Z.to_nat (n - processed).
Proof.
  intros Hcap Hn.
  assert (Htruthy : JS.truthy_num (Some n) = true).
  { cbn. now destruct (Z.eqb_spec n 0). }
  induction fuel as [| fuel IH]; intros nextCursor processed st; cbn [verify_loop].
  - rewrite Htruthy. cbn [negb orb]. destruct (processed <? n)%Z; cbn [snd]; lia.
  - rewrite Htruthy. cbn [negb orb].
    destruct (Z.ltb_spec processed n) as [Hlt | Hge]; [| cbn [snd]; lia].
    match goal with
    | |- context [ask (EvResources ?q) ?o st] =>
        pose proof (Hcap q (world st)) as Hpage;
        unfold ask;
        destruct (o (world st)) as [[resources cursor | e] w1] eqn:Hreply
    end; cbn [snd fst].
    + specialize (Hpage _ _ _ eq_refl). cbn [max_results] in Hpage.
      match goal with
      | |- context [verifyBatch resources ?s] =>
          assert (Hheads : length (calls is_head (verifyBatch resources s))
                           = length (calls is_head st) + length resources)
      end.
      { rewrite verifyBatch_heads. unfold calls. cbn [trace].
        rewrite List.filter_app. cbn. rewrite app_nil_r. reflexivity. }
      destruct (JS.truthy_field cursor && _).
      * etransitivity; [apply IH |]. rewrite Hheads. lia.
      * cbn [snd]. rewrite Hheads. lia.
    + unfold calls. cbn [trace]. rewrite List.filter_app. cbn. rewrite app_nil_r. lia.
Qed.

End Sampling.

(** X18. In front of a catalog that never returns more than [max_results]
    assets, a verification with sample size [n] probes at most [n] assets
    (none when [n] is negative). *)
Theorem verify_respects_sample_size
    {World : Type} `{Services World} (resourceType deliveryType : string) (n : Z)
    (fuel : nat) (st : St Verifier World) :
  (forall request w resources cursor w',
     api_resources request w = (Page resources cursor, w') ->
     (Z.of_nat (length resources) <= Z.max 0 (max_results request))%Z) ->
  n <> 0%Z ->
  length (calls is_head (snd (verify resourceType deliveryType (Some n) fuel st)))
  <= length (calls is_head st) + Z.to_nat n.
Proof.
  intros Hcap Hn. unfold verify.
  pose proof (verify_loop_sample resourceType deliveryType n fuel Hcap Hn None 0%Z st) as Hb.
  now rewrite Z.sub_0_r in Hb.
Qed.

(** A sample of 120 out of 250 listed assets: two requests, 120 probes. *)
Lemma verify_respects_sample_size_witness :
  length (calls is_head (snd (verify "image" "upload" (Some 120%Z) 10 Listing.start)))
  <= length (calls is_head Listing.start) + Z.to_nat 120.
Proof.
  apply (verify_respects_sample_size "image" "upload" 120%Z 10 Listing.start).
  - intros request w resources cursor w' Hpage. cbn in Hpage. unfold Listing.page in Hpage.
    injection Hpage as <- _ _. rewrite length_firstn. lia.
  - discriminate.
Defined.

Example sample_run :
  let final := snd (verify "image" "upload" (Some 120%Z) 10 Listing.start) in
  map (fun ev => match ev with EvResources q => max_results q | _ => 0%Z end)
    (calls is_resources final) = [100%Z; 20%Z]
  /\ length (calls is_head final) = 120
  /\ verified (self final) = 120.
Proof. vm_compute. repeat split. Qed.

(** ** The metadata of an upload *)

Lemma append_inv_head (p a b : string) : p +:+ a = p +:+ b -> a = b.
Proof.
  induction p as [| c p IH]; intros E; [exact E |].
  apply IH. change (String c (p +:+ a) = String c (p +:+ b)) in E. now injection E.
Qed.

Lemma context_key_inj (a b : string) : "context-" +:+ a = "context-" +:+ b -> a = b.
Proof. apply append_inv_head. Qed.

(** Folding the context into the metadata: a prefixed key reads the
    context entry when there is one, every other key reads what was
    there. *)
Lemma fold_context (base entries : gmap string string) :
  let result := map_fold (fun key value m => <["context-" +:+ key := value]> m)
                  base entries in
  (forall key, result !! ("context-" +:+ key)
               = match entries !! key with
                 | Some value => Some value
                 | None => base !! ("context-" +:+ key)
                 end)
  /\ (forall name, (forall key, name <> "context-" +:+ key) -> result !! name = base !! name).
Proof.
  cbv zeta.
  apply (map_fold_weak_ind
           (fun result entries =>
              (forall key, result !! ("context-" +:+ key)
                           = match entries !! key with
                             | Some value => Some value
                             | None => base !! ("context-" +:+ key)
                             end)
              /\ (forall name, (forall key, name <> "context-" +:+ key) ->
                                result !! name = base !! name))).
  - split; [intros key; now rewrite lookup_empty | reflexivity].
  - intros i x m r Hfresh [IHc IHo]. split.
    + intros key. destruct (decide (i = key)) as [-> | Hne].
      * now rewrite !lookup_insert_eq.
      * rewrite !lookup_insert_ne; [apply IHc | exact Hne |].
        intros E. apply context_key_inj in E. contradiction.
    + intros name Hname. rewrite lookup_insert_ne; [now apply IHo |].
      intros E. now apply (Hname i).
Qed.

Lemma set_number_other (key name : string) (n : option Z) (metadata : gmap string string) :
  key <> name -> set_number key n metadata !! name = metadata !! name.
Proof.
  intros Hne. unfold set_number.
  destruct n as [z |]; [destruct (JS.truthy_num (Some z)) |]; try reflexivity.
  now apply lookup_insert_ne.
Qed.

(** X19. The metadata always carries the identifier, the resource type and
    the creation date of the descriptor, whatever the context holds, and
    each context entry is found again under its prefixed key: stripping
    the prefix gives the context back. *)
Theorem uploadMetadata_round_trip (r : Resource) (d : Details) :
  uploadMetadata r d !! "original-public-id" = Some (public_id r)
  /\ uploadMetadata r d !! "resource-type" = Some (asset_resource_type d)
  /\ uploadMetadata r d !! "cloudinary-created-at" = Some (asset_created_at d)
  /\ forall entries key,
       asset_context d = Some entries ->
       uploadMetadata r d !! ("context-" +:+ key) = entries !! key.
Proof.
  unfold uploadMetadata.
  set (base := match asset_tags d with Some (t :: ts) => _ | _ => _ end).
  assert (Hfixed : forall name,
             In name ["original-public-id"; "resource-type"; "cloudinary-created-at"] ->
             (forall key, name <> "context-" +:+ key)
             /\ base !! name = initialMetadata r d !! name).
  { intros name Hin. split.
    - intros key E. cbn [String.append] in E.
      destruct Hin as [<- | [<- | [<- | []]]]; discriminate E.
    - unfold base.
      assert (Htags : "tags" <> name)
        by (destruct Hin as [<- | [<- | [<- | []]]]; discriminate).
      assert (Hsize : "original-size" <> name)
        by (destruct Hin as [<- | [<- | [<- | []]]]; discriminate).
      assert (Hwidth : "width" <> name)
        by (destruct Hin as [<- | [<- | [<- | []]]]; discriminate).
      assert (Hheight : "height" <> name)
        by (destruct Hin as [<- | [<- | [<- | []]]]; discriminate).
      destruct (asset_tags d) as [[| t ts] |];
        rewrite ?(lookup_insert_ne _ _ _ _ Htags), !set_number_other by assumption;
        reflexivity. }
  assert (Hnone : forall key, base !! ("context-" +:+ key) = None).
  { intros key. unfold base. cbn [String.append].
    destruct (asset_tags d) as [[| t ts] |];
      rewrite ?lookup_insert_ne by discriminate;
      rewrite !set_number_other by discriminate;
      unfold initialMetadata;
      rewrite !lookup_insert_ne by discriminate; apply lookup_empty. }
  assert (Hlookup : forall name,
             In name ["original-public-id"; "resource-type"; "cloudinary-created-at"] ->
             match asset_context d with
             | Some entries =>
                 map_fold (fun key value m => <["context-" +:+ key := value]> m) base entries
             | None => base
             end !! name
             = initialMetadata r d !! name).
  { intros name Hin. destruct (Hfixed name Hin) as [Hname Hbase].
    destruct (asset_context d) as [entries |]; [| exact Hbase].
    destruct (fold_context base entries) as [_ Hother]. now rewrite Hother. }
  repeat split.
  - rewrite Hlookup by (cbn; auto). unfold initialMetadata.
    rewrite !lookup_insert_ne by discriminate. apply lookup_insert_eq.
  - rewrite Hlookup by (cbn; auto). unfold initialMetadata.
    rewrite lookup_insert_ne by discriminate. apply lookup_insert_eq.
  - rewrite Hlookup by (cbn; auto). apply lookup_insert_eq.
  - intros entries key ->. destruct (fold_context base entries) as [Hctx _].
    rewrite Hctx, Hnone. now destruct (entries !! key).
Qed.

(** The sizes and the tags are entries of their own, present exactly when
    the descriptor has them. *)
Example uploadMetadata_sample :
  let d := mkDetails "image" "2024-01-01T00:00:00Z" (Some 640%Z) (Some 0%Z)
             (Some ["sale"; "red"]) (Some (<["alt" := "A red shoe"]> ∅)) in
  let metadata := uploadMetadata Sample.asset d in
  metadata !! "original-size" = Some "5"
  /\ metadata !! "width" = Some "640"
  /\ metadata !! "height" = None
  /\ metadata !! "tags" = Some "sale,red"
  /\ metadata !! "context-alt" = Some "A red shoe"
  /\ size metadata = 7.
Proof. vm_compute. repeat split. Qed.

(** ** The requests of a paginated run *)

Section Requests.
Context {World : Type} `{Services World}.
Variable env : Config.

#[local] Abbreviation State := (St Migrator World).

Lemma paginate_requests (options : option string -> ResourcesOptions) (fuel : nat) :
  forall (nextCursor : option string) (st : State),
  exists cursors,
    calls is_catalog_call (snd (paginate env options fuel nextCursor st))
    = calls is_catalog_call st ++ map (fun c => EvResources (options c)) cursors
    /\ length cursors <= fuel
    /\ cursor_chain nextCursor cursors.
Proof.
  induction fuel as [| fuel IH]; intros nextCursor st; cbn [paginate].
  - exists []. cbn. rewrite app_nil_r. repeat split. lia.
  - pose proof (ask_trace (EvResources (options nextCursor))
                  (api_resources (options nextCursor)) st) as Htr.
    destruct (ask _ _ st) as [[resources cursor | e] st1]; cbn [snd] in *.
    + set (st2 := snd (update (add_total (length resources)) st1)).
      assert (H3 : calls is_catalog_call (snd (processBatch env resources st2))
                   = calls is_catalog_call st ++ [EvResources (options nextCursor)]).
      { rewrite (processBatch_keeps_calls env is_catalog_call resources (fun ev E => E)).
        unfold st2, calls, update. cbn [snd trace]. now rewrite Htr, List.filter_app. }
      destruct (processBatch env resources st2) as [[[] | e] st3]; cbn [snd] in H3.
      * destruct (JS.truthy_field cursor) eqn:Hc.
        -- destruct (IH cursor st3) as (cursors & Hcalls & Hlen & Hchain).
           exists (nextCursor :: cursors). rewrite Hcalls, H3, <- app_assoc.
           split; [reflexivity |]. split; [cbn; lia |].
           split; [reflexivity |].
           destruct cursors as [| c cs]; [constructor |].
           destruct Hchain as [-> Hrest]. now constructor.
        -- exists [nextCursor]. cbn [snd]. rewrite H3.
           repeat split; [cbn; lia | constructor].
      * exists [nextCursor]. cbn [snd]. rewrite H3.
        repeat split; [cbn; lia | constructor].
    + exists [nextCursor]. unfold calls. rewrite Htr, List.filter_app.
      repeat split; [cbn; lia | constructor].
Qed.

End Requests.

(** X20. Every catalog request of [migrate] is a [resources] request with the
    configured types and page size; the first carries no cursor and each
    later one a cursor that is present and not empty; there are at most as
    many as loop iterations. *)
Theorem migrate_requests
    {World : Type} `{Services World} (env : Config) (fuel : nat) (st : St Migrator World) :
  exists cursors,
    calls is_catalog_call (snd (migrate env fuel st))
    = calls is_catalog_call st
      ++ map (fun c => EvResources
                         (mkResourcesOptions (RESOURCE_TYPE env) (DELIVERY_TYPE env)
                            (MAX_RESULTS env) c None None false false false))
           cursors
    /\ length cursors <= fuel
    /\ cursor_chain None cursors.
Proof.
  destruct (paginate_requests env (migrate_options env) fuel None st)
    as (cursors & Hcalls & Hlen & Hchain).
  exists cursors. split; [| split; assumption]. unfold migrate. rewrite Hcalls. f_equal.
  assert (Hsame : forall c, c = None \/ JS.truthy_field c = true ->
            EvResources (migrate_options env c)
            = EvResources (mkResourcesOptions (RESOURCE_TYPE env) (DELIVERY_TYPE env)
                             (MAX_RESULTS env) c None None false false false)).
  { intros c [-> | Hc]; unfold migrate_options; [reflexivity | now rewrite Hc]. }
  destruct cursors as [| first rest]; [reflexivity |].
  destruct Hchain as [-> Hrest]. cbn [map]. rewrite Hsame by auto. f_equal.
  clear Hcalls Hlen. induction Hrest as [| c cs Hc _ IH]; [reflexivity |].
  cbn [map]. rewrite IH, Hsame by auto. reflexivity.
Qed.

(** X21. Without explicit identifiers (none given, or an empty list) the
    selective run pages through the catalog with its filters and issues
    no direct lookup. *)
Theorem selective_without_ids_paginates
    {World : Type} `{Services World} (env : Config) (options : SelectiveOptions)
    (fuel : nat) (st : St Migrator World) :
  sel_publicIds options = None \/ sel_publicIds options = Some [] ->
  exists cursors,
    calls is_catalog_call (snd (selective_migrate env options fuel st))
    = calls is_catalog_call st
      ++ map (fun c => EvResources (filter_options options c)) cursors
    /\ length cursors <= fuel
    /\ cursor_chain None cursors.
Proof.
  intros Hids. unfold selective_migrate, migrateWithFilters.
  destruct Hids as [-> | ->]; apply paginate_requests.
Qed.

(** The prefix [products/] over the three-page catalog. *)
Lemma selective_without_ids_paginates_witness :
  let options := mkSelectiveOptions (Some "products/") (Some []) None false false false
                   None None (Some 0%Z) in
  exists cursors,
    calls is_catalog_call
      (snd (selective_migrate ThreePages.env options 5 ThreePages.start))
    = calls is_catalog_call ThreePages.start
      ++ map (fun c => EvResources (filter_options options c)) cursors
    /\ length cursors <= 5
    /\ cursor_chain None cursors.
Proof.
  cbv zeta.
  apply (selective_without_ids_paginates ThreePages.env
           (mkSelectiveOptions (Some "products/") (Some []) None false false false
              None None (Some 0%Z)) 5 ThreePages.start).
  right. reflexivity.
Defined.

Example selective_filter_run :
  let options := mkSelectiveOptions (Some "products/") None None false false false
                   None None (Some 0%Z) in
  calls is_catalog_call (snd (selective_migrate ThreePages.env options 5 ThreePages.start))
  = map (fun c => EvResources
                    (mkResourcesOptions "image" "upload" 100 c (Some "products/") None
                       false false false))
      [None; Some "c2"; Some "c3"].
Proof. vm_compute. reflexivity. Qed.

(** ** Probes over a whole run *)

Section Probes.
Context {World : Type} `{Services World}.

#[local] Abbreviation State := (St Migrator World).

Lemma checkS3FileExists_one_probe (s3Key : string) (st : State) :
  calls is_head (snd (checkS3FileExists s3Key st)) = calls is_head st ++ [EvHeadObject s3Key].
Proof.
  destruct (checkS3FileExists_conservative s3Key st) as (_ & Htr & _).
  unfold calls. rewrite Htr, List.filter_app. f_equal.
  destruct (fst (s3_headObject s3Key (world st))) as [? | code ?];
    [| destruct (String.eqb code "NotFound")]; reflexivity.
Qed.

(** The probes of one task: one under the asset's key when the policy
    asks for the check, none otherwise; the policy itself stays. *)
Lemma settle_probes (r : Resource) (st : State) :
  calls is_head (settle r st)
  = calls is_head st ++ (if checks_existence (self st) then [EvHeadObject (migrate_s3Key r)] else [])
  /\ checks_existence (self (settle r st)) = checks_existence (self st).
Proof.
  split.
  - unfold settle.
    assert (Hm : calls is_head (snd (migrateAsset r st))
                 = calls is_head st
                   ++ (if checks_existence (self st) then [EvHeadObject (migrate_s3Key r)] else [])).
    { rewrite migrateAsset_unfold. unfold checks_existence.
      destruct (skipExisting (self st) && negb (forceOverwrite (self st))).
      - pose proof (checkS3FileExists_one_probe (migrate_s3Key r) st) as Hp.
        destruct (checkS3FileExists (migrate_s3Key r) st) as [[[|] | e] st1];
          cbn [fst snd] in *; try exact Hp.
        rewrite (transfer_keeps_calls is_head r (migrate_s3Key r)) by reflexivity.
        exact Hp.
      - rewrite (transfer_keeps_calls is_head r (migrate_s3Key r)) by reflexivity.
        now rewrite app_nil_r. }
    destruct (migrateAsset r st) as [[result | e] st']; cbn [snd] in Hm; [| exact Hm].
    destruct (String.eqb result "migrated"); [exact Hm |].
    destruct (String.eqb result "skipped"); exact Hm.
  - pose proof (migrateAsset_keeps_self r st) as Hk. unfold settle.
    destruct (migrateAsset r st) as [[result | e] st']; cbn [snd] in Hk;
      unfold obs_self, policy, counts in Hk; injection Hk as _ _ _ _ Hskip Hforce;
      unfold checks_existence.
    + destruct (String.eqb result "migrated"); [cbn; now rewrite Hskip, Hforce |].
      destruct (String.eqb result "skipped"); cbn; now rewrite Hskip, Hforce.
    + cbn. now rewrite Hskip, Hforce.
Qed.

Lemma settle_all_probes (resources : list Resource) (st : State) :
  calls is_head (settle_all resources st)
  = calls is_head st
    ++ (if checks_existence (self st)
        then map (fun r => EvHeadObject (migrate_s3Key r)) resources
        else [])
  /\ checks_existence (self (settle_all resources st)) = checks_existence (self st).
Proof.
  unfold settle_all. revert st.
  induction resources as [| r rs IH]; intros st; cbn [fold_left map].
  - split; [| reflexivity]. destruct (checks_existence (self st)); now rewrite app_nil_r.
  - destruct (IH (settle r st)) as [Hc Hg]. destruct (settle_probes r st) as [Hc1 Hg1].
    rewrite Hc, Hg, Hc1, Hg1, <- app_assoc. split; [| reflexivity].
    now destruct (checks_existence (self st)).
Qed.

(** The probes of a batch: those of its tasks, when there are tasks. *)
Lemma processBatch_probes (env : Config) (resources : list Resource) (st : State) :
  calls is_head (snd (processBatch env resources st))
  = calls is_head st
    ++ (if (1 <=? concurrency env)%Z && checks_existence (self st)
        then map (fun r => EvHeadObject (migrate_s3Key r)) resources
        else [])
  /\ checks_existence (self (snd (processBatch env resources st)))
     = checks_existence (self st).
Proof.
  destruct (Z.leb_spec 1 (concurrency env)) as [Hlimit | Hlimit]; cbn [andb].
  - rewrite (processBatch_valid env resources st Hlimit). apply settle_all_probes.
  - destruct (processBatch_invalid env resources st Hlimit) as [e ->]. cbn [snd].
    now rewrite app_nil_r.
Qed.

Lemma paginate_no_probe (env : Config) (options : option string -> ResourcesOptions)
    (fuel : nat) :
  forall (nextCursor : option string) (st : State),
    checks_existence (self st) = false ->
    calls is_head (snd (paginate env options fuel nextCursor st)) = calls is_head st.
Proof.
  induction fuel as [| fuel IH]; intros nextCursor st Hg; cbn [paginate]; [reflexivity |].
  pose proof (ask_self (EvResources (options nextCursor))
                (api_resources (options nextCursor)) st) as Hself.
  pose proof (ask_trace (EvResources (options nextCursor))
                (api_resources (options nextCursor)) st) as Htr.
  destruct (ask _ _ st) as [[resources cursor | e] st1]; cbn [snd] in *.
  - set (st2 := snd (update (add_total (length resources)) st1)).
    assert (Hg2 : checks_existence (self st2) = false) by (unfold st2; cbn; now rewrite Hself).
    destruct (processBatch_probes env resources st2) as [Hc Hg3].
    rewrite Hg2, andb_false_r in Hc. rewrite Hg2 in Hg3.
    assert (Hc3 : calls is_head (snd (processBatch env resources st2)) = calls is_head st).
    { rewrite Hc, app_nil_r. unfold st2, calls, update. cbn [snd trace].
      rewrite Htr, List.filter_app. apply app_nil_r. }
    destruct (processBatch env resources st2) as [[[] | e] st3]; cbn [snd] in *;
      [| exact Hc3].
    destruct (JS.truthy_field cursor); [| exact Hc3].
    rewrite IH by exact Hg3. exact Hc3.
  - unfold calls. rewrite Htr, List.filter_app. apply app_nil_r.
Qed.

End Probes.

(** X22. The probes of a batch follow the limit and the policy: when the
    limiter can be made (a limit of 1 or more) and the policy asks for the
    existence check, every asset is probed exactly once, in the order of
    the page, under the migrator's key; when the policy does not ask, or
    the limit is invalid and the batch throws, no asset is probed. *)
Theorem batch_probes_follow_policy
    {World : Type} `{Services World} (env : Config) (resources : list Resource)
    (st : St Migrator World) :
  calls is_head (snd (processBatch env resources st))
  = calls is_head st
    ++ (if (1 <=? concurrency env)%Z && checks_existence (self st)
        then map (fun r => EvHeadObject (migrate_s3Key r)) resources
        else []).
Proof. apply processBatch_probes. Qed.

(** The page of three, under the default limit and under [-1]. *)
Example batch_probes_sample :
  let page := [ThreePages.asset "p1"; ThreePages.asset "p2"; ThreePages.asset "p3"] in
  calls is_head (snd (processBatch ThreePages.env page ThreePages.start))
  = [EvHeadObject "cloudinary/p1.jpg"; EvHeadObject "cloudinary/p2.jpg";
     EvHeadObject "cloudinary/p3.jpg"]
  /\ processBatch InvalidLimit.env page ThreePages.start
     = (Throw "Expected `concurrency` to be a number from 1 and up", ThreePages.start).
Proof. vm_compute. split; reflexivity. Qed.

(** X23. A run whose policy does not ask for the existence check
    ([--force-overwrite], or [--no-skip-existing]) never probes the
    bucket, however many pages it goes through. *)
Theorem run_without_check_never_probes
    {World : Type} `{Services World} (env : Config) (options : Options) (fuel : nat)
    (fs : gmap string string) (tr : list Event) (w : World) :
  checks_existence (new_Migrator options) = false ->
  calls is_head (snd (migrate env fuel (mkSt (new_Migrator options) fs tr w)))
  = List.filter is_head tr.
Proof.
  intros Hg. unfold migrate. now rewrite paginate_no_probe.
Qed.

(** [--no-skip-existing] over the three-page catalog. *)
Lemma run_without_check_never_probes_witness :
  calls is_head
    (snd (migrate ThreePages.env 5
            (mkSt (new_Migrator (parseArgs ["--no-skip-existing"])) ∅ []
               (Stub.mkWorld ∅ true ThreePages.catalog))))
  = List.filter is_head [].
Proof.
  apply (run_without_check_never_probes ThreePages.env
           (parseArgs ["--no-skip-existing"]) 5 ∅ []
           (Stub.mkWorld ∅ true ThreePages.catalog)).
  reflexivity.
Defined.

(** ** What is uploaded, and who is listed *)

Section Uploads.
Context {World : Type} `{Services World}.

#[local] Abbreviation State := (St Migrator World).

(** X24. A transfer uploads at most once, and only after its download has
    arrived and been staged completely; the key is the migrator's, the
    type what [getContentType] gives for the format, and the body what
    the staging path holds when the worker reads it back: the downloaded
    bytes, if nobody else has touched the path meanwhile. *)
Theorem uploads_only_what_was_staged (r : Resource) (st : State) :
  exists uploads,
    calls is_upload (snd (transfer r (migrate_s3Key r) st)) = calls is_upload st ++ uploads
    /\ (uploads = []
        \/ exists target data body contentType w1 w2,
             JS.or_else (secure_url r) (url r) = Some target
             /\ axios_get target (world st) = (GetOk data, w1)
             /\ stream_write (stagingPath (public_id r) (format r)) data w1
                = (WriterFinish, w2)
             /\ fs_others w2 (<[stagingPath (public_id r) (format r) := data]> (files st))
                  !! stagingPath (public_id r) (format r) = Some body
             /\ (undisturbed (stagingPath (public_id r) (format r)) w2 -> body = data)
             /\ getContentType (format r) = Ok contentType
             /\ uploads = [EvUpload (mkUploadParams (migrate_s3Key r) body contentType)]).
Proof.
  assert (Hnone : forall st' : State,
            calls is_upload st' = calls is_upload st ->
            exists uploads,
              calls is_upload st' = calls is_upload st ++ uploads
              /\ (uploads = []
                  \/ exists target data body contentType w1 w2,
                       JS.or_else (secure_url r) (url r) = Some target
                       /\ axios_get target (world st) = (GetOk data, w1)
                       /\ stream_write (stagingPath (public_id r) (format r)) data w1
                          = (WriterFinish, w2)
                       /\ fs_others w2
                            (<[stagingPath (public_id r) (format r) := data]> (files st))
                            !! stagingPath (public_id r) (format r) = Some body
                       /\ (undisturbed (stagingPath (public_id r) (format r)) w2 ->
                           body = data)
                       /\ getContentType (format r) = Ok contentType
                       /\ uploads
                          = [EvUpload (mkUploadParams (migrate_s3Key r) body contentType)])).
  { intros st' E. exists []. rewrite app_nil_r. auto. }
  destruct (JS.or_else (secure_url r) (url r)) as [target |] eqn:Hu;
    [destruct (JS.truthy target) eqn:Ht |];
    try (apply Hnone; unfold transfer; rewrite Hu, ?Ht; reflexivity).
  destruct (axios_get target (world st)) as [[data | e] w1] eqn:Hget;
    [| apply Hnone; unfold transfer, downloadAsset; rewrite Hu, Ht;
       rewrite bind_assoc, bind_call, Hget; unfold bind, throw, calls;
       cbn [fst snd trace]; rewrite List.filter_app; apply app_nil_r].
  destruct (stream_write (stagingPath (public_id r) (format r)) data w1)
    as [[| e left_behind] w2] eqn:Hwrite;
    [| apply Hnone; unfold transfer, downloadAsset; rewrite Hu, Ht;
       rewrite bind_assoc, bind_call, Hget; cbn [fst snd];
       rewrite bind_assoc, bind_call; cbn [fst snd self files trace world];
       rewrite Hwrite; unfold bind, set_files, throw, calls; cbn [fst snd trace];
       rewrite !List.filter_app; cbn; now rewrite !app_nil_r].
  destruct (fs_others w2 (<[stagingPath (public_id r) (format r) := data]> (files st))
              !! stagingPath (public_id r) (format r)) as [body |] eqn:Hread;
    [destruct (getContentType (format r)) as [contentType | e] eqn:Hct |].
  - exists [EvUpload (mkUploadParams (migrate_s3Key r) body contentType)]. split.
    + apply (transfer_uploads r (migrate_s3Key r) target data body contentType st w1 w2);
        assumption.
    + right. exists target, data, body, contentType, w1, w2.
      repeat split; try assumption.
      intros Hquiet. rewrite Hquiet, lookup_insert_eq in Hread. now injection Hread.
  - apply Hnone. unfold transfer, downloadAsset, uploadToS3. rewrite Hu, Ht.
    rewrite bind_assoc, bind_call, Hget. cbn [fst snd].
    rewrite bind_assoc, bind_call. cbn [fst snd self files trace world].
    rewrite Hwrite, Hct.
    unfold readFileSync, look, bind, set_files, ret, throw.
    cbn [fst snd self files trace world]. rewrite Hread.
    unfold calls. cbn [snd trace]. rewrite !List.filter_app. cbn. now rewrite !app_nil_r.
  - apply Hnone. unfold transfer, downloadAsset, uploadToS3. rewrite Hu, Ht.
    rewrite bind_assoc, bind_call, Hget. cbn [fst snd].
    rewrite bind_assoc, bind_call. cbn [fst snd self files trace world].
    rewrite Hwrite.
    unfold readFileSync, look, bind, set_files, ret, throw.
    cbn [fst snd self files trace world]. rewrite Hread.
    unfold calls. cbn [snd trace]. rewrite !List.filter_app. cbn. now rewrite !app_nil_r.
Qed.

End Uploads.

Section Listed.
Context {World : Type} `{Services World}.

#[local] Abbreviation State := (St Migrator World).

Lemma settle_listed (r : Resource) (st : State) :
  exists failed skipped,
    failedAssets (self (settle r st)) = failedAssets (self st) ++ failed
    /\ skippedAssets (self (settle r st)) = skippedAssets (self st) ++ skipped
    /\ map failed_public_id failed ++ map skipped_public_id skipped `sublist_of` [public_id r]
    /\ Forall (fun entry => s3_key entry = migrate_s3Key r
                            /\ reason entry = "already_exists") skipped.
Proof.
  unfold settle.
  pose proof (migrateAsset_self r st) as Hself.
  pose proof (migrateAsset_returns r st) as Hr.
  destruct (migrateAsset r st) as [[result | e] st'] eqn:E; cbn [fst snd] in Hself.
  - destruct (Hr _ _ eq_refl) as [-> | ->]; cbn in Hself |- *; rewrite Hself; cbn.
    + exists [], []. rewrite !app_nil_r. repeat split; [apply sublist_nil_l | constructor].
    + exists [], [mkSkippedAsset (public_id r) (migrate_s3Key r) "already_exists"].
      rewrite app_nil_r. repeat split; [reflexivity | now repeat constructor].
  - cbn. rewrite Hself. exists [mkFailedAsset (public_id r) e], [].
    rewrite app_nil_r. repeat split; [reflexivity | constructor].
Qed.

Lemma settle_all_listed (resources : list Resource) (st : State) :
  exists failed skipped,
    failedAssets (self (settle_all resources st)) = failedAssets (self st) ++ failed
    /\ skippedAssets (self (settle_all resources st)) = skippedAssets (self st) ++ skipped
    /\ map failed_public_id failed ++ map skipped_public_id skipped
       ⊆+ map public_id resources
    /\ Forall (fun entry => reason entry = "already_exists") skipped.
Proof.
  unfold settle_all. revert st.
  induction resources as [| r rs IH]; intros st; cbn [fold_left map].
  - exists [], []. rewrite !app_nil_r. repeat split; constructor.
  - destruct (IH (settle r st)) as (f2 & s2 & Hf2 & Hs2 & Hsub2 & Hr2).
    destruct (settle_listed r st) as (f1 & s1 & Hf1 & Hs1 & Hsub1 & Hr1).
    exists (f1 ++ f2), (s1 ++ s2). rewrite Hf2, Hs2, Hf1, Hs1, <- !app_assoc, !map_app.
    repeat split.
    + change (public_id r :: map public_id rs) with ([public_id r] ++ map public_id rs).
      transitivity ((map failed_public_id f1 ++ map skipped_public_id s1)
                    ++ (map failed_public_id f2 ++ map skipped_public_id s2)).
      * apply Permutation_submseteq. rewrite <- !app_assoc.
        apply Permutation_app_head. rewrite !app_assoc.
        apply Permutation_app_tail. apply Permutation_app_comm.
      * apply submseteq_app; [now apply sublist_submseteq | exact Hsub2].
    + apply Forall_app. split; [| exact Hr2].
      eapply Forall_impl; [exact Hr1 |]. now intros entry [_ ?].
Qed.

End Listed.

(** X25. The entries a batch adds to the failed list and to the skipped
    list name assets of the batch, at most one entry per listed asset over
    the two lists together, in whatever order the tasks settle; every
    skipped entry gives the reason [already_exists]. A batch that throws
    for an invalid limit adds none. *)
Theorem batch_lists_name_its_assets
    {World : Type} `{Services World} (env : Config) (resources : list Resource)
    (st : St Migrator World) :
  exists failed skipped,
    failedAssets (self (snd (processBatch env resources st)))
    = failedAssets (self st) ++ failed
    /\ skippedAssets (self (snd (processBatch env resources st)))
       = skippedAssets (self st) ++ skipped
    /\ map failed_public_id failed ++ map skipped_public_id skipped
       ⊆+ map public_id resources
    /\ Forall (fun entry => reason entry = "already_exists") skipped
    /\ ((concurrency env < 1)%Z -> failed = [] /\ skipped = []).
Proof.
  destruct (Z.leb_spec 1 (concurrency env)) as [Hlimit | Hlimit].
  - rewrite (processBatch_valid env resources st Hlimit). cbn [snd].
    destruct (settle_all_listed resources st) as (failed & skipped & Hf & Hs & Hsub & Hr).
    exists failed, skipped. repeat split; try assumption; lia.
  - destruct (processBatch_invalid env resources st Hlimit) as [e ->]. cbn [snd].
    exists [], []. rewrite !app_nil_r. repeat split; try constructor.
    apply submseteq_nil_l.
Qed.

(** A page of four: [p1] fails for want of a URL, [p2] is in the bucket,
    [p3] is migrated, and [p1] is listed again. *)
Example batch_lists_sample :
  let orphan := mkResource "p1" (Some "jpg") None None None None in
  let page := [orphan; ThreePages.asset "p2"; ThreePages.asset "p3"; orphan] in
  let st := Stub.start (new_Migrator (mkOptions None None))
              (Stub.mkWorld (<["cloudinary/p2.jpg" := 1%Z]> ∅) true []) in
  let final := self (snd (processBatch ThreePages.env page st)) in
  map failed_public_id (failedAssets final) = ["p1"; "p1"]
  /\ map skipped_public_id (skippedAssets final) = ["p2"]
  /\ counts final = (1, 1, 2, 0).
Proof. vm_compute. repeat split. Qed.

(** ** A limit the scheduler refuses *)

(** X26. With a concurrency limit below 1 ([MIGRATION_CONCURRENCY] negative)
    a run of [migrate] whose first request is answered with a page stops
    there, however many pages follow: one catalog request, [totalCount]
    raised by the length of the page, no asset probed, transferred,
    counted or listed. *)
Theorem invalid_limit_stops_at_first_page
    {World : Type} `{Services World} (env : Config) (fuel : nat) (st : St Migrator World)
    (resources : list Resource) (cursor : option string) (w1 : World) :
  (concurrency env < 1)%Z ->
  api_resources (migrate_options env None) (world st) = (Page resources cursor, w1) ->
  migrate env (S fuel) st
  = (Broken,
     mkSt (add_total (length resources) (self st)) (files st)
       (trace st ++ [EvResources (migrate_options env None)]) w1).
Proof.
  intros Hlimit Hpage.
  exact (paginate_invalid_limit env (migrate_options env) fuel None st resources cursor w1
           Hlimit Hpage).
Qed.

(** The three-page catalog under [MIGRATION_CONCURRENCY=-1]. *)
Lemma invalid_limit_stops_at_first_page_witness :
  migrate InvalidLimit.env 10 ThreePages.start
  = (Broken,
     mkSt (add_total 1 (self ThreePages.start)) (files ThreePages.start)
       (trace ThreePages.start ++ [EvResources (migrate_options InvalidLimit.env None)])
       (Stub.mkWorld ∅ true
          [Page [ThreePages.asset "p2"; ThreePages.asset "p3"] (Some "c3");
           Page [ThreePages.asset "p4"] None])).
Proof.
  apply (invalid_limit_stops_at_first_page InvalidLimit.env 9 ThreePages.start
           [ThreePages.asset "p1"] (Some "c2")
           (Stub.mkWorld ∅ true
              [Page [ThreePages.asset "p2"; ThreePages.asset "p3"] (Some "c3");
               Page [ThreePages.asset "p4"] None])).
  - vm_compute. reflexivity.
  - reflexivity.
Defined.
